(** * The CalDAV client facade of the calendar app (src/services/caldavService.js)

    A shallow embedding of the facade: the module-level singleton [client],
    the [DavClient] objects it refers to, the header provider installed on
    the client, and the thirteen exported operations.  The cdav-library
    client and the DAV server behind it are the facade's environment: what
    they answer is a parameter of the development ([DavLibrary]). *)

From stdpp Require Import base option list strings.
From Equations Require Import Equations.
From Equations.Prop Require Import Logic.

Local Open Scope string_scope.
Local Open Scope list_scope.

(** ** JavaScript values, completions and settled promises *)

(** A value that is [null], [undefined] or an object of the given shape. *)
Inductive JsVal (A : Type) : Type :=
| JsNull
| JsUndefined
| JsObj (a : A).
Arguments JsNull {A}.
Arguments JsUndefined {A}.
Arguments JsObj {A} a.

#[global] Instance JsVal_eq_dec {A} `{EqDecision A} : EqDecision (JsVal A).
Proof. solve_decision. Defined.

(** [arr[i]]: an index past the end of an array reads [undefined]. *)
Definition js_index {A} (arr : list A) (i : nat) : JsVal A :=
  match arr !! i with
  | Some a => JsObj a
  | None => JsUndefined
  end.

Record Error := mkError { err_name : string; err_message : string }.

#[global] Instance Error_eq_dec : EqDecision Error.
Proof. solve_decision. Defined.

(** The engine's error for a member access on [null] or [undefined]. *)
Definition TypeError (msg : string) : Error := mkError "TypeError" msg.

Definition cannotRead (what member : string) : Error :=
  TypeError ("Cannot read properties of " ++ what ++ " (reading '" ++ member ++ "')")%string.

(** Outcome of a synchronous call. *)
Inductive Completion (A : Type) : Type :=
| Return (a : A)
| Throw (e : Error).
Arguments Return {A} a.
Arguments Throw {A} e.

(** Outcome of an awaited promise. *)
Inductive Settled (A : Type) : Type :=
| Fulfilled (a : A)
| Rejected (e : Error).
Arguments Fulfilled {A} a.
Arguments Rejected {A} e.

(** [promise.catch(() => v)]: a rejection is replaced by [v]. *)
Definition catch_with {A} (p : Settled A) (v : A) : Settled A :=
  match p with
  | Fulfilled a => Fulfilled a
  | Rejected _ => Fulfilled v
  end.

(** [Promise.all]: the values in the order of the promises, or the first
    rejection in that order. *)
Fixpoint promise_all {A} (ps : list (Settled A)) : Settled (list A) :=
  match ps with
  | [] => Fulfilled []
  | Fulfilled a :: ps' =>
      match promise_all ps' with
      | Fulfilled l => Fulfilled (a :: l)
      | Rejected e => Rejected e
      end
  | Rejected e :: _ => Rejected e
  end.

(** ** DAV entities handed through by the facade *)

Record CalendarHome := mkHome { home_url : string }.
Record Calendar := mkCalendar { calendar_url : string; calendar_displayname : string }.
Record ScheduleInbox := mkInbox { inbox_url : string }.
Record ScheduleOutbox := mkOutbox { outbox_url : string }.
Record Principal := mkPrincipal { principalUrl : string; principal_displayname : string }.

#[global] Instance CalendarHome_eq_dec : EqDecision CalendarHome.
Proof. solve_decision. Defined.
#[global] Instance Calendar_eq_dec : EqDecision Calendar.
Proof. solve_decision. Defined.
#[global] Instance ScheduleInbox_eq_dec : EqDecision ScheduleInbox.
Proof. solve_decision. Defined.
#[global] Instance ScheduleOutbox_eq_dec : EqDecision ScheduleOutbox.
Proof. solve_decision. Defined.
#[global] Instance Principal_eq_dec : EqDecision Principal.
Proof. solve_decision. Defined.

(** ** XMLHttpRequest and the header provider (getClient, lines 35-56) *)

Definition Header : Type := string * string.

(** The native part of a request object: [readyState] (0 is UNSENT, 1 is
    OPENED), the method and URL given to [open], the author request headers
    in the order they were set, and whether
    [OC.registerXHRForErrorProcessing] has seen the object. *)
Record XHRState := mkXHRState {
  readyState : nat;
  xhr_target : option (string * string);
  requestHeaders : list Header;
  errorProcessing : bool;
}.

(** A request object: its native state and its own [open] property. *)
Record XHR := mkXHR {
  xhr_state : XHRState;
  xhr_open : string -> string -> XHRState -> Completion XHRState;
}.

(** [new XMLHttpRequest()] *)
Definition freshXHRState : XHRState :=
  {| readyState := 0; xhr_target := None; requestHeaders := []; errorProcessing := false |}.

(** The native [open(method, url)]: the request is OPENED and its author
    request headers are emptied. *)
Definition native_open (method url : string) (s : XHRState) : Completion XHRState :=
  Return {| readyState := 1; xhr_target := Some (method, url);
            requestHeaders := []; errorProcessing := errorProcessing s |}.

(** The native [setRequestHeader(name, value)]: an InvalidStateError unless
    the request is OPENED; otherwise the pair joins the author request
    headers (a repeated name keeps every value, one entry each). *)
Definition setRequestHeader (name value : string) (s : XHRState) : Completion XHRState :=
  if decide (readyState s = 1) then
    Return {| readyState := readyState s; xhr_target := xhr_target s;
              requestHeaders := requestHeaders s ++ [(name, value)];
              errorProcessing := errorProcessing s |}
  else Throw (mkError "InvalidStateError" "The object's state must be OPENED.").

(** [for (const name in headers) xhr.setRequestHeader(name, headers[name])] *)
Fixpoint setRequestHeaders (hs : list Header) (s : XHRState) : Completion XHRState :=
  match hs with
  | [] => Return s
  | (name, value) :: hs' =>
      match setRequestHeader name value s with
      | Return s' => setRequestHeaders hs' s'
      | Throw e => Throw e
      end
  end.

(** The [headers] object of the provider, in property order; [token] is what
    [getRequestToken()] returns when the provider runs. *)
Definition headers (token : string) : list Header :=
  [ ("X-Requested-With", "XMLHttpRequest");
    ("requesttoken", token);
    ("X-NC-CalDAV-Webcal-Caching", "On") ].

(** The overriding [xhr.open]: the old [open] first, then every header. *)
Definition patched_open (oldOpen : string -> string -> XHRState -> Completion XHRState)
    (hs : list Header) (method url : string) (s : XHRState) : Completion XHRState :=
  match oldOpen method url s with
  | Return s' =>
      match setRequestHeaders hs s' with
      | Return s'' => Return s''
      | Throw e => Throw e
      end
  | Throw e => Throw e
  end.

(** [OC.registerXHRForErrorProcessing(xhr)] *)
Definition registerXHRForErrorProcessing (s : XHRState) : XHRState :=
  {| readyState := readyState s; xhr_target := xhr_target s;
     requestHeaders := requestHeaders s; errorProcessing := true |}.

(** The second argument of [new DavClient(...)]: the closure that builds the
    request object of one outgoing request. *)
Definition xhrProvider (token : string) : XHR :=
  let xhr := freshXHRState in
  let oldOpen := native_open in
  {| xhr_state := registerXHRForErrorProcessing xhr;
     xhr_open := patched_open oldOpen (headers token) |}.

(** Modelled from the spec: the transport of cdav-library, which is not part
    of this repository.  It takes a header-provider function invoked once per
    outgoing request: the request object comes from the provider, is opened
    through its own [open] property, may be given further headers by the
    transport, and is then sent.  The result is the request as sent. *)
Definition issueRequest (provider : string -> XHR) (token method url : string)
    (extra : list Header) : Completion XHRState :=
  let xhr := provider token in
  match xhr_open xhr method url (xhr_state xhr) with
  | Return s => setRequestHeaders extra s
  | Throw e => Throw e
  end.

(** ** The DavClient object and the library behind it *)

(** The fields of a [DavClient] the facade reads, with the constructor
    arguments the object keeps. *)
Record DavClient := mkDavClient {
  rootUrl : string;
  requestFactory : string -> XHR;
  currentUserPrincipal : JsVal Principal;
  calendarHomes : list CalendarHome;
  publicCalendarHome : JsVal CalendarHome;
}.

(** Modelled from the spec: the constructor of cdav-library's client, which is
    not part of this repository.  It keeps [{ rootUrl }] and the header
    provider; a session holds calendar homes only once they are negotiated, a
    public calendar home only in public mode, and a principal only when
    authenticated, so a new client has none of them. *)
Definition newDavClient (root : string) (provider : string -> XHR) : DavClient :=
  {| rootUrl := root; requestFactory := provider;
     currentUserPrincipal := JsNull; calendarHomes := [];
     publicCalendarHome := JsNull |}.

(** What cdav-library and the server answer.  Queries read the server state;
    [connect], the two creations and the birthday-calendar switch may change
    it.  [lib_connect] returns the client as the bootstrap left it, whether it
    succeeded or not. *)
Record DavLibrary (Srv : Type) := mkDavLibrary {
  lib_connect : bool -> DavClient -> Srv -> Settled unit * DavClient * Srv;
  lib_publicHome : DavClient -> CalendarHome;
  lib_findAllCalendars : CalendarHome -> Srv -> Settled (list Calendar);
  lib_find : CalendarHome -> string -> Srv -> Settled (JsVal Calendar);
  lib_findAllScheduleInboxes : CalendarHome -> Srv -> Settled (list ScheduleInbox);
  lib_findAllScheduleOutboxes : CalendarHome -> Srv -> Settled (list ScheduleOutbox);
  lib_createCalendarCollection :
    CalendarHome -> string -> string -> list string -> Z -> string -> Srv ->
    Settled Calendar * Srv;
  lib_createSubscribedCollection :
    CalendarHome -> string -> string -> string -> Z -> Srv -> Settled Calendar * Srv;
  lib_enableBirthdayCalendar : CalendarHome -> Srv -> Settled unit * Srv;
  lib_principalPropertySearchByDisplayname : string -> Srv -> Settled (list Principal);
  lib_findPrincipal : string -> Srv -> Settled (JsVal Principal);
}.
Arguments lib_connect {Srv}.
Arguments lib_publicHome {Srv}.
Arguments lib_findAllCalendars {Srv}.
Arguments lib_find {Srv}.
Arguments lib_findAllScheduleInboxes {Srv}.
Arguments lib_findAllScheduleOutboxes {Srv}.
Arguments lib_createCalendarCollection {Srv}.
Arguments lib_createSubscribedCollection {Srv}.
Arguments lib_enableBirthdayCalendar {Srv}.
Arguments lib_principalPropertySearchByDisplayname {Srv}.
Arguments lib_findPrincipal {Srv}.

(** Modelled from the spec: [_createPublicCalendarHome] of cdav-library, which
    is not part of this repository.  It establishes the public-calendar-home
    placeholder on the client and does nothing else. *)
Definition createPublicCalendarHome {Srv} (lib : DavLibrary Srv) (c : DavClient) : DavClient :=
  {| rootUrl := rootUrl c; requestFactory := requestFactory c;
     currentUserPrincipal := currentUserPrincipal c;
     calendarHomes := calendarHomes c;
     publicCalendarHome := JsObj (lib_publicHome lib c) |}.

(** ** The world the facade runs in *)

(** An address of an object allocated by [new DavClient]. *)
Definition Ref : Type := nat.

(** A call the facade makes into cdav-library. *)
Inductive Call : Type :=
| CNew (root : string)
| CConnect (enableCalDAV : bool)
| CCreatePublicCalendarHome
| CFindAllCalendars (h : CalendarHome)
| CFind (h : CalendarHome) (uri : string)
| CFindAllScheduleInboxes (h : CalendarHome)
| CFindAllScheduleOutboxes (h : CalendarHome)
| CCreateCalendarCollection (h : CalendarHome) (displayName color : string)
    (components : list string) (order : Z) (timezoneIcs : string)
| CCreateSubscribedCollection (h : CalendarHome) (displayName color source : string)
    (order : Z)
| CEnableBirthdayCalendar (h : CalendarHome)
| CPrincipalPropertySearchByDisplayname (query : string)
| CFindPrincipal (url : string).

#[global] Instance Call_eq_dec : EqDecision Call.
Proof. solve_decision. Defined.

(** [client] is the module variable ([None] is [null]); [heap] holds the
    [DavClient] objects by address; [server] is the state of the DAV server;
    [trace] lists the library calls made so far, oldest first. *)
Record World (Srv : Type) := mkWorld {
  client : option Ref;
  heap : list DavClient;
  server : Srv;
  trace : list Call;
}.
Arguments mkWorld {Srv}.
Arguments client {Srv}.
Arguments heap {Srv}.
Arguments server {Srv}.
Arguments trace {Srv}.

(** The world when the module is loaded: [let client = null]. *)
Definition boot {Srv} (srv : Srv) : World Srv :=
  {| client := None; heap := []; server := srv; trace := [] |}.

Section Facade.

(** The environment of the module: the DAV server state [Srv] with the
    library in front of it, [generateRemoteUrl] of @nextcloud/router, and
    the constant [CALDAV_BIRTHDAY_CALENDAR] of models/consts.js. *)
Context {Srv : Type} (lib : DavLibrary Srv).
Context (generateRemoteUrl : string -> string).
Context (CALDAV_BIRTHDAY_CALENDAR : string).

(** ** getClient (lines 27-59) *)

(** [client = new DavClient({ rootUrl: generateRemoteUrl('dav') }, provider)]:
    the object is allocated at the next free address and the module
    variable is set to that address.  Neither the constructor nor the
    arguments evaluated for it call into this module, so nothing runs between
    the test of [client] and its assignment. *)
Definition construct (w : World Srv) : World Srv :=
  {| client := Some (length (heap w));
     heap := heap w ++ [newDavClient (generateRemoteUrl "dav") xhrProvider];
     server := server w;
     trace := trace w ++ [CNew (generateRemoteUrl "dav")] |}.

(** The number of constructions [getClient] still has to make. *)
Definition pending (w : World Srv) : nat :=
  match client w with
  | Some _ => 0
  | None => 1
  end.

(** [getClient]: the client if there is one; otherwise the client is built
    and assigned, and [getClient] calls itself. *)
Equations? getClient (w : World Srv) : Ref * World Srv by wf (pending w) lt :=
  getClient w with inspect (client w) := {
    | exist _ (Some c) _ => (c, w);
    | exist _ None Hnull => getClient (construct w) }.
Proof. unfold pending. rewrite Hnull. simpl. lia. Qed.

(** ** Running the facade: state passing, [None] for a dangling address *)

Definition M (A : Type) : Type := World Srv -> option (A * World Srv).

Definition ret {A} (a : A) : M A := fun w => Some (a, w).

Definition bind {A B} (m : M A) (k : A -> M B) : M B :=
  fun w =>
    match m w with
    | Some (a, w') => k a w'
    | None => None
    end.

Notation "'let*' x ':=' m 'in' k" := (bind m (fun x => k))
  (at level 10, x pattern, m at level 100, k at level 200).

Definition total {A} (f : World Srv -> A * World Srv) : M A :=
  fun w => Some (f w).

Definition gets {A} (f : World Srv -> A) : M A := fun w => Some (f w, w).

(** Reading the object at an address. *)
Definition deref (r : Ref) : M DavClient :=
  fun w =>
    match heap w !! r with
    | Some c => Some (c, w)
    | None => None
    end.

(** A method that mutates the object at an address. *)
Definition store (r : Ref) (c : DavClient) : M unit :=
  fun w =>
    match heap w !! r with
    | Some _ =>
        Some (tt, {| client := client w; heap := <[r := c]> (heap w);
                     server := server w; trace := trace w |})
    | None => None
    end.

Definition put_server (srv : Srv) : M unit :=
  fun w => Some (tt, {| client := client w; heap := heap w;
                        server := srv; trace := trace w |}).

Definition call (c : Call) : M unit :=
  fun w => Some (tt, {| client := client w; heap := heap w;
                        server := server w; trace := trace w ++ [c] |}).

(** [v.name]: a member access on [null] or [undefined] throws. *)
Definition member {A} (v : JsVal A) (name : string) : Completion A :=
  match v with
  | JsObj a => Return a
  | JsUndefined => Throw (cannotRead "undefined" name)
  | JsNull => Throw (cannotRead "null" name)
  end.

(** [getClient().calendarHomes[0]] *)
Definition firstCalendarHome : M (JsVal CalendarHome) :=
  let* r := total getClient in
  let* c := deref r in
  ret (js_index (calendarHomes c) 0).

(** ** The exported operations *)

(** [await getClient().connect({ enableCalDAV: true })] *)
Definition initializeClientForUserView : M (Settled unit) :=
  let* r := total getClient in
  let* c := deref r in
  let* _ := call (CConnect true) in
  let* srv := gets server in
  let '(res, c', srv') := lib_connect lib true c srv in
  let* _ := store r c' in
  let* _ := put_server srv' in
  ret res.

(** [await getClient()._createPublicCalendarHome()] *)
Definition initializeClientForPublicView : M (Settled unit) :=
  let* r := total getClient in
  let* c := deref r in
  let* _ := call CCreatePublicCalendarHome in
  let* _ := store r (createPublicCalendarHome lib c) in
  ret (Fulfilled tt).

(** Not an async function: a failing member access throws to the caller,
    otherwise the library's promise is returned as it is. *)
Definition findAllCalendars : M (Completion (Settled (list Calendar))) :=
  let* v := firstCalendarHome in
  match member v "findAllCalendars" with
  | Throw e => ret (Throw e)
  | Return h =>
      let* _ := call (CFindAllCalendars h) in
      let* srv := gets server in
      ret (Return (lib_findAllCalendars lib h srv))
  end.

(** The [for (const token of tokens)] loop, [findPromises] being the array
    built so far. *)
Fixpoint findPromisesLoop (tokens : list string)
    (findPromises : list (Settled (JsVal Calendar)))
    : M (Completion (list (Settled (JsVal Calendar)))) :=
  match tokens with
  | [] => ret (Return findPromises)
  | token :: rest =>
      let* r := total getClient in
      let* c := deref r in
      match member (publicCalendarHome c) "find" with
      | Throw e => ret (Throw e)
      | Return h =>
          let* _ := call (CFind h token) in
          let* srv := gets server in
          let promise := catch_with (lib_find lib h token srv) JsNull in
          findPromisesLoop rest (findPromises ++ [promise])
      end
  end.

Definition findPublicCalendarsByTokens (tokens : list string)
    : M (Settled (list (JsVal Calendar))) :=
  let* loop := findPromisesLoop tokens [] in
  match loop with
  | Throw e => ret (Rejected e)
  | Return findPromises =>
      match promise_all findPromises with
      | Rejected e => ret (Rejected e)
      | Fulfilled calendars =>
          ret (Fulfilled (filter (fun calendar => calendar <> JsNull) calendars))
      end
  end.

Definition findSchedulingInbox : M (Settled (JsVal ScheduleInbox)) :=
  let* v := firstCalendarHome in
  match member v "findAllScheduleInboxes" with
  | Throw e => ret (Rejected e)
  | Return h =>
      let* _ := call (CFindAllScheduleInboxes h) in
      let* srv := gets server in
      match lib_findAllScheduleInboxes lib h srv with
      | Rejected e => ret (Rejected e)
      | Fulfilled inboxes => ret (Fulfilled (js_index inboxes 0))
      end
  end.

Definition findSchedulingOutbox : M (Settled (JsVal ScheduleOutbox)) :=
  let* v := firstCalendarHome in
  match member v "findAllScheduleOutboxes" with
  | Throw e => ret (Rejected e)
  | Return h =>
      let* _ := call (CFindAllScheduleOutboxes h) in
      let* srv := gets server in
      match lib_findAllScheduleOutboxes lib h srv with
      | Rejected e => ret (Rejected e)
      | Fulfilled outboxes => ret (Fulfilled (js_index outboxes 0))
      end
  end.

Definition createCalendar (displayName color : string) (components : list string)
    (order : Z) (timezoneIcs : string) : M (Settled Calendar) :=
  let* v := firstCalendarHome in
  match member v "createCalendarCollection" with
  | Throw e => ret (Rejected e)
  | Return h =>
      let* _ := call (CCreateCalendarCollection h displayName color components order timezoneIcs) in
      let* srv := gets server in
      let '(res, srv') :=
        lib_createCalendarCollection lib h displayName color components order timezoneIcs srv in
      let* _ := put_server srv' in
      ret res
  end.

Definition createSubscription (displayName color source : string) (order : Z)
    : M (Settled Calendar) :=
  let* v := firstCalendarHome in
  match member v "createSubscribedCollection" with
  | Throw e => ret (Rejected e)
  | Return h =>
      let* _ := call (CCreateSubscribedCollection h displayName color source order) in
      let* srv := gets server in
      let '(res, srv') :=
        lib_createSubscribedCollection lib h displayName color source order srv in
      let* _ := put_server srv' in
      ret res
  end.

Definition getBirthdayCalendar : M (Settled (JsVal Calendar)) :=
  let* v := firstCalendarHome in
  match member v "find" with
  | Throw e => ret (Rejected e)
  | Return h =>
      let* _ := call (CFind h CALDAV_BIRTHDAY_CALENDAR) in
      let* srv := gets server in
      ret (lib_find lib h CALDAV_BIRTHDAY_CALENDAR srv)
  end.

Definition enableBirthdayCalendar : M (Settled (JsVal Calendar)) :=
  let* v := firstCalendarHome in
  match member v "enableBirthdayCalendar" with
  | Throw e => ret (Rejected e)
  | Return h =>
      let* _ := call (CEnableBirthdayCalendar h) in
      let* srv := gets server in
      let '(res, srv') := lib_enableBirthdayCalendar lib h srv in
      let* _ := put_server srv' in
      match res with
      | Rejected e => ret (Rejected e)
      | Fulfilled _ => getBirthdayCalendar
      end
  end.

(** A property read on the client object: it returns what the field holds. *)
Definition getCurrentUserPrincipal : M (Completion (JsVal Principal)) :=
  let* r := total getClient in
  let* c := deref r in
  ret (Return (currentUserPrincipal c)).

Definition findPrincipalsByDisplayName (query : string) : M (Settled (list Principal)) :=
  let* _ := total getClient in
  let* _ := call (CPrincipalPropertySearchByDisplayname query) in
  let* srv := gets server in
  ret (lib_principalPropertySearchByDisplayname lib query srv).

Definition findPrincipalByUrl (url : string) : M (Settled (JsVal Principal)) :=
  let* _ := total getClient in
  let* _ := call (CFindPrincipal url) in
  let* srv := gets server in
  ret (lib_findPrincipal lib url srv).

End Facade.

Arguments ret {Srv A} a w /.
Arguments bind {Srv A B} m k w /.
Arguments total {Srv A} f w /.
Arguments gets {Srv A} f w /.
Arguments deref {Srv} r w /.
Arguments store {Srv} r c w /.
Arguments put_server {Srv} srv w /.
Arguments call {Srv} c w /.


(** ** The process: any sequence of calls into the module *)

Inductive Op : Type :=
| OGetClient
| OInitializeClientForUserView
| OInitializeClientForPublicView
| OFindAllCalendars
| OFindPublicCalendarsByTokens (tokens : list string)
| OFindSchedulingInbox
| OFindSchedulingOutbox
| OCreateCalendar (displayName color : string) (components : list string)
    (order : Z) (timezoneIcs : string)
| OCreateSubscription (displayName color source : string) (order : Z)
| OEnableBirthdayCalendar
| OGetBirthdayCalendar
| OGetCurrentUserPrincipal
| OFindPrincipalsByDisplayName (query : string)
| OFindPrincipalByUrl (url : string).

#[global] Instance Op_eq_dec : EqDecision Op.
Proof. solve_decision. Defined.

(** Whether a library call is a [new DavClient]. *)
Definition isNew (c : Call) : bool :=
  match c with
  | CNew _ => true
  | _ => false
  end.

(** How often the [DavClient] constructor ran in a trace. *)
Fixpoint news (tr : list Call) : nat :=
  match tr with
  | [] => 0
  | c :: tr' => (if isNew c then 1 else 0) + news tr'
  end.

Definition constructions {Srv} (w : World Srv) : nat := news (trace w).

Section Process.
Context {Srv : Type} (lib : DavLibrary Srv).
Context (generateRemoteUrl : string -> string).
Context (CALDAV_BIRTHDAY_CALENDAR : string).

(** The world a call leaves behind, whatever it returned. *)
Definition after {A} (m : M A) (w : World Srv) : option (World Srv) :=
  match m w with
  | Some (_, w') => Some w'
  | None => None
  end.

Definition exec (o : Op) : World Srv -> option (World Srv) :=
  match o with
  | OGetClient => after (total (getClient generateRemoteUrl))
  | OInitializeClientForUserView =>
      after (initializeClientForUserView lib generateRemoteUrl)
  | OInitializeClientForPublicView =>
      after (initializeClientForPublicView lib generateRemoteUrl)
  | OFindAllCalendars => after (findAllCalendars lib generateRemoteUrl)
  | OFindPublicCalendarsByTokens tokens =>
      after (findPublicCalendarsByTokens lib generateRemoteUrl tokens)
  | OFindSchedulingInbox => after (findSchedulingInbox lib generateRemoteUrl)
  | OFindSchedulingOutbox => after (findSchedulingOutbox lib generateRemoteUrl)
  | OCreateCalendar displayName color components order timezoneIcs =>
      after (createCalendar lib generateRemoteUrl displayName color components order timezoneIcs)
  | OCreateSubscription displayName color source order =>
      after (createSubscription lib generateRemoteUrl displayName color source order)
  | OEnableBirthdayCalendar =>
      after (enableBirthdayCalendar lib generateRemoteUrl CALDAV_BIRTHDAY_CALENDAR)
  | OGetBirthdayCalendar =>
      after (getBirthdayCalendar lib generateRemoteUrl CALDAV_BIRTHDAY_CALENDAR)
  | OGetCurrentUserPrincipal => after (getCurrentUserPrincipal generateRemoteUrl)
  | OFindPrincipalsByDisplayName query =>
      after (findPrincipalsByDisplayName lib generateRemoteUrl query)
  | OFindPrincipalByUrl url => after (findPrincipalByUrl lib generateRemoteUrl url)
  end.

Fixpoint run (ops : list Op) (w : World Srv) : option (World Srv) :=
  match ops with
  | [] => Some w
  | o :: ops' =>
      match exec o w with
      | Some w' => run ops' w'
      | None => None
      end
  end.

(** The address [getClient] returns in a world, the world it leaves, and
    the object at that address: the session every operation works on. *)
Definition self (w : World Srv) : Ref := fst (getClient generateRemoteUrl w).
Definition settle (w : World Srv) : World Srv := snd (getClient generateRemoteUrl w).
Definition session (w : World Srv) : option DavClient := heap (settle w) !! self w.

(** A world after further library calls were traced. *)
Definition traced (w : World Srv) (calls : list Call) : World Srv :=
  {| client := client w; heap := heap w; server := server w;
     trace := trace w ++ calls |}.

(** A world after the server moved on and further library calls were traced. *)
Definition served (w : World Srv) (srv : Srv) (calls : list Call) : World Srv :=
  {| client := client w; heap := heap w; server := srv;
     trace := trace w ++ calls |}.

(** A world after a method changed the object at an address. *)
Definition mutated (w : World Srv) (r : Ref) (c : DavClient) : World Srv :=
  {| client := client w; heap := <[r := c]> (heap w); server := server w;
     trace := trace w |}.

(** What the promise of one token resolves to once its [catch] is attached:
    the value the lookup found, or [null] for a lookup that was rejected. *)
Definition resolution (h : CalendarHome) (srv : Srv) (token : string) : JsVal Calendar :=
  match lib_find lib h token srv with
  | Fulfilled v => v
  | Rejected _ => JsNull
  end.

(** The server accepted a token: its lookup found something. *)
Definition accepted (h : CalendarHome) (srv : Srv) (token : string) : Prop :=
  resolution h srv token <> JsNull.

#[global] Instance accepted_dec h srv token : Decision (accepted h srv token).
Proof. unfold accepted. apply _. Defined.

(** What the seven home-scoped operations do when the session has no first
    calendar home: the member access on [undefined] fails, in
    [findAllCalendars] as an exception thrown to the caller, in the async
    operations as a rejection, and the library is not reached. *)
Definition home_access_fails (w : World Srv) : Prop :=
  findAllCalendars lib generateRemoteUrl w
    = Some (Throw (cannotRead "undefined" "findAllCalendars"), settle w) /\
  findSchedulingInbox lib generateRemoteUrl w
    = Some (Rejected (cannotRead "undefined" "findAllScheduleInboxes"), settle w) /\
  findSchedulingOutbox lib generateRemoteUrl w
    = Some (Rejected (cannotRead "undefined" "findAllScheduleOutboxes"), settle w) /\
  (forall displayName color components order timezoneIcs,
     createCalendar lib generateRemoteUrl displayName color components order timezoneIcs w
       = Some (Rejected (cannotRead "undefined" "createCalendarCollection"), settle w)) /\
  (forall displayName color source order,
     createSubscription lib generateRemoteUrl displayName color source order w
       = Some (Rejected (cannotRead "undefined" "createSubscribedCollection"), settle w)) /\
  enableBirthdayCalendar lib generateRemoteUrl CALDAV_BIRTHDAY_CALENDAR w
    = Some (Rejected (cannotRead "undefined" "enableBirthdayCalendar"), settle w) /\
  getBirthdayCalendar lib generateRemoteUrl CALDAV_BIRTHDAY_CALENDAR w
    = Some (Rejected (cannotRead "undefined" "find"), settle w).

(** What [enableBirthdayCalendar] does once it holds the first home [h]. *)
Definition enable_then_fetch (w : World Srv) (h : CalendarHome)
    : option (Settled (JsVal Calendar) * World Srv) :=
  let '(res, srv') := lib_enableBirthdayCalendar lib h (server w) in
  match res with
  | Rejected e => Some (Rejected e, served (settle w) srv' [CEnableBirthdayCalendar h])
  | Fulfilled _ =>
      Some (lib_find lib h CALDAV_BIRTHDAY_CALENDAR srv',
            served (settle w) srv'
              [CEnableBirthdayCalendar h; CFind h CALDAV_BIRTHDAY_CALENDAR])
  end.

(** What the seven home-scoped operations do when the first calendar home
    is [h]: each reaches the library with [h] and hands back its answer. *)
Definition home_access_reaches (w : World Srv) (h : CalendarHome) : Prop :=
  findAllCalendars lib generateRemoteUrl w
    = Some (Return (lib_findAllCalendars lib h (server w)),
            traced (settle w) [CFindAllCalendars h]) /\
  findSchedulingInbox lib generateRemoteUrl w
    = Some (match lib_findAllScheduleInboxes lib h (server w) with
            | Fulfilled inboxes => Fulfilled (js_index inboxes 0)
            | Rejected e => Rejected e
            end,
            traced (settle w) [CFindAllScheduleInboxes h]) /\
  findSchedulingOutbox lib generateRemoteUrl w
    = Some (match lib_findAllScheduleOutboxes lib h (server w) with
            | Fulfilled outboxes => Fulfilled (js_index outboxes 0)
            | Rejected e => Rejected e
            end,
            traced (settle w) [CFindAllScheduleOutboxes h]) /\
  (forall displayName color components order timezoneIcs,
     createCalendar lib generateRemoteUrl displayName color components order timezoneIcs w
       = let '(res, srv') :=
           lib_createCalendarCollection lib h displayName color components order
             timezoneIcs (server w) in
         Some (res, served (settle w) srv'
                      [CCreateCalendarCollection h displayName color components order
                         timezoneIcs])) /\
  (forall displayName color source order,
     createSubscription lib generateRemoteUrl displayName color source order w
       = let '(res, srv') :=
           lib_createSubscribedCollection lib h displayName color source order (server w) in
         Some (res, served (settle w) srv'
                      [CCreateSubscribedCollection h displayName color source order])) /\
  enableBirthdayCalendar lib generateRemoteUrl CALDAV_BIRTHDAY_CALENDAR w
    = enable_then_fetch w h /\
  getBirthdayCalendar lib generateRemoteUrl CALDAV_BIRTHDAY_CALENDAR w
    = Some (lib_find lib h CALDAV_BIRTHDAY_CALENDAR (server w),
            traced (settle w) [CFind h CALDAV_BIRTHDAY_CALENDAR]).

(** The module has not built its client yet. *)
Definition unborn (w : World Srv) : Prop :=
  client w = None /\ heap w = [] /\ constructions w = 0.

(** The module holds the one client ever built. *)
Definition born (w : World Srv) : Prop :=
  client w = Some 0 /\ length (heap w) = 1 /\ constructions w = 1.

(** A computation keeps the singleton when, run in a born world, it returns
    and leaves a born world. *)
Definition keeps {A} (m : M A) : Prop :=
  forall c (srv : Srv) tr, news tr = 1 ->
    exists a c' srv' tr',
      m (mkWorld (Some 0) [c] srv tr) = Some (a, mkWorld (Some 0) [c'] srv' tr')
      /\ news tr' = 1.

End Process.

(** ** The history of library calls *)

Section History.
Context {Srv : Type}.

(** A computation appends to the history when, run on the one client the
    module holds, it returns, keeps that client at its address, and adds
    library calls of which none is a construction. *)
Definition appends {A} (m : M (Srv := Srv) A) : Prop :=
  forall c (srv : Srv) tr,
    exists a c' srv' extra,
      m (mkWorld (Some 0) [c] srv tr) = Some (a, mkWorld (Some 0) [c'] srv' (tr ++ extra))
      /\ news extra = 0.

End History.

(** ** The settings panel (components/AppNavigation/Settings.vue) *)

Module Settings.

(** The prop [loadingCalendars] and the fields of [data()]. *)
Record Component := mkComponent {
  loadingCalendars : bool;
  savingBirthdayCalendar : bool;
  savingEventLimit : bool;
  savingTasks : bool;
  savingPopover : bool;
  savingSlotDuration : bool;
  savingWeekend : bool;
  savingWeekNumber : bool;
  displayKeyboardShortcuts : bool;
}.

#[global] Instance Component_eq_dec : EqDecision Component.
Proof. solve_decision. Defined.

(** [data()]: nothing is being saved, the shortcut overview is hidden. *)
Definition data (loading : bool) : Component :=
  {| loadingCalendars := loading;
     savingBirthdayCalendar := false; savingEventLimit := false;
     savingTasks := false; savingPopover := false;
     savingSlotDuration := false; savingWeekend := false;
     savingWeekNumber := false; displayKeyboardShortcuts := false |}.

(** The seven [saving...] fields. *)
Inductive SavingFlag : Type :=
| SavingBirthdayCalendar
| SavingEventLimit
| SavingTasks
| SavingPopover
| SavingSlotDuration
| SavingWeekend
| SavingWeekNumber.

#[global] Instance SavingFlag_eq_dec : EqDecision SavingFlag.
Proof. solve_decision. Defined.

(** [this.saving...] *)
Definition saving (f : SavingFlag) (d : Component) : bool :=
  match f with
  | SavingBirthdayCalendar => savingBirthdayCalendar d
  | SavingEventLimit => savingEventLimit d
  | SavingTasks => savingTasks d
  | SavingPopover => savingPopover d
  | SavingSlotDuration => savingSlotDuration d
  | SavingWeekend => savingWeekend d
  | SavingWeekNumber => savingWeekNumber d
  end.

(** [this.saving... = b] *)
Definition set_saving (f : SavingFlag) (b : bool) (d : Component) : Component :=
  match f with
  | SavingBirthdayCalendar =>
      mkComponent (loadingCalendars d) b (savingEventLimit d) (savingTasks d)
        (savingPopover d) (savingSlotDuration d) (savingWeekend d) (savingWeekNumber d)
        (displayKeyboardShortcuts d)
  | SavingEventLimit =>
      mkComponent (loadingCalendars d) (savingBirthdayCalendar d) b (savingTasks d)
        (savingPopover d) (savingSlotDuration d) (savingWeekend d) (savingWeekNumber d)
        (displayKeyboardShortcuts d)
  | SavingTasks =>
      mkComponent (loadingCalendars d) (savingBirthdayCalendar d) (savingEventLimit d) b
        (savingPopover d) (savingSlotDuration d) (savingWeekend d) (savingWeekNumber d)
        (displayKeyboardShortcuts d)
  | SavingPopover =>
      mkComponent (loadingCalendars d) (savingBirthdayCalendar d) (savingEventLimit d)
        (savingTasks d) b (savingSlotDuration d) (savingWeekend d) (savingWeekNumber d)
        (displayKeyboardShortcuts d)
  | SavingSlotDuration =>
      mkComponent (loadingCalendars d) (savingBirthdayCalendar d) (savingEventLimit d)
        (savingTasks d) (savingPopover d) b (savingWeekend d) (savingWeekNumber d)
        (displayKeyboardShortcuts d)
  | SavingWeekend =>
      mkComponent (loadingCalendars d) (savingBirthdayCalendar d) (savingEventLimit d)
        (savingTasks d) (savingPopover d) (savingSlotDuration d) b (savingWeekNumber d)
        (displayKeyboardShortcuts d)
  | SavingWeekNumber =>
      mkComponent (loadingCalendars d) (savingBirthdayCalendar d) (savingEventLimit d)
        (savingTasks d) (savingPopover d) (savingSlotDuration d) (savingWeekend d) b
        (displayKeyboardShortcuts d)
  end.

(** [this.displayKeyboardShortcuts = b] *)
Definition set_displayKeyboardShortcuts (b : bool) (d : Component) : Component :=
  mkComponent (loadingCalendars d) (savingBirthdayCalendar d) (savingEventLimit d)
    (savingTasks d) (savingPopover d) (savingSlotDuration d) (savingWeekend d)
    (savingWeekNumber d) b.

(** What a method awaits: a store action with its payload, or the clipboard. *)
Inductive Request : Type :=
| Dispatch (action : string) (payload : option string)
| CopyText (text : string).

#[global] Instance Request_eq_dec : EqDecision Request.
Proof. solve_decision. Defined.

(** What a method shows or logs. *)
Inductive UiEvent : Type :=
| ConsoleError (error : Error)
| ConsoleDebug (error : Error)
| ShowError (message : string)
| ShowSuccess (message : string).

#[global] Instance UiEvent_eq_dec : EqDecision UiEvent.
Proof. solve_decision. Defined.

(** What is left of a method once the promise it awaited has settled: from
    the component as it is then, the component it leaves, what it showed,
    and how its own promise settles. *)
Definition Resume : Type :=
  Settled unit -> Component -> Component * list UiEvent * Settled unit.

(** An async method, run up to its [await]: it has finished, or it has left
    the component in some state and waits for a request to settle. *)
Inductive Step : Type :=
| Done (d : Component) (result : Settled unit)
| Await (d : Component) (request : Request) (resume : Resume).

(** The component a method leaves when it returns to the event loop. *)
Definition suspended (st : Step) : Component :=
  match st with
  | Done d _ => d
  | Await d _ _ => d
  end.

(** The request a method waits for, if any. *)
Definition awaited (st : Step) : option Request :=
  match st with
  | Done _ _ => None
  | Await _ request _ => Some request
  end.

(** A method resumed on the component [d'] with the outcome of its request;
    a finished method does nothing more. *)
Definition resumption (st : Step) (outcome : Settled unit) (d' : Component)
    : Component * list UiEvent * Settled unit :=
  match st with
  | Done _ result => (d', [], result)
  | Await _ _ resume => resume outcome d'
  end.

(** An entry of [slotDurationOptions]. *)
Record DurationOption := mkDurationOption { label : string; value : string }.

#[global] Instance DurationOption_eq_dec : EqDecision DurationOption.
Proof. solve_decision. Defined.

(** [arr.find(p)]: the first element that satisfies [p], or [undefined]. *)
Fixpoint js_find {A} (p : A -> bool) (arr : list A) : JsVal A :=
  match arr with
  | [] => JsUndefined
  | a :: arr' => if p a then JsObj a else js_find p arr'
  end.

Section Methods.

(** [$t] of the translation service, [generateRemoteUrl] of
    @nextcloud/router, [moment.duration(ms).locale(locale).humanize()], and
    [new URL(url, base)] with the address it denotes. *)
Context (t : string -> string -> string).
Context (generateRemoteUrl : string -> string).
Context (humanize : string -> Z -> string).
Context (newURL : string -> string -> Completion string).

(** ** computed *)

Definition isBirthdayCalendarDisabled (d : Component) : bool :=
  savingBirthdayCalendar d || loadingCalendars d.

Definition slotDurationOptions (locale : string) : list DurationOption :=
  [ {| label := humanize locale (5 * 60 * 1000); value := "00:05:00" |};
    {| label := humanize locale (10 * 60 * 1000); value := "00:10:00" |};
    {| label := humanize locale (15 * 60 * 1000); value := "00:15:00" |};
    {| label := humanize locale (20 * 60 * 1000); value := "00:20:00" |};
    {| label := humanize locale (30 * 60 * 1000); value := "00:30:00" |};
    {| label := humanize locale (60 * 60 * 1000); value := "01:00:00" |} ].

(** [this.slotDurationOptions.find(o => o.value === this.slotDuration)] *)
Definition selectedDurationOption (locale slotDuration : string) : JsVal DurationOption :=
  js_find (fun o => bool_decide (value o = slotDuration)) (slotDurationOptions locale).

(** The [:disabled] binding of the control of each setting in the template:
    the birthday checkbox is bound to [isBirthdayCalendarDisabled], the
    others to their [saving...] field. *)
Definition controlDisabled (f : SavingFlag) (d : Component) : bool :=
  match f with
  | SavingBirthdayCalendar => isBirthdayCalendarDisabled d
  | _ => saving f d
  end.

(** ** methods *)

(** The body the seven setting handlers share, up to the field and the
    action: the field is set, the action is dispatched and awaited inside
    [try]; after it the field is reset, in the [catch] branch after
    [console.error] and [showError]. *)
Definition saveSetting (f : SavingFlag) (action : string) (payload : option string)
    (d : Component) : Step :=
  Await (set_saving f true d) (Dispatch action payload)
    (fun outcome d' =>
       match outcome with
       | Fulfilled _ => (set_saving f false d', [], Fulfilled tt)
       | Rejected error =>
           (set_saving f false d',
            [ConsoleError error;
             ShowError (t "calendar" "New setting was not saved successfully.")],
            Fulfilled tt)
       end).

Definition toggleBirthdayEnabled : Component -> Step :=
  saveSetting SavingBirthdayCalendar "toggleBirthdayCalendarEnabled" None.

Definition toggleEventLimitEnabled : Component -> Step :=
  saveSetting SavingEventLimit "toggleEventLimitEnabled" None.

Definition toggleTasksEnabled : Component -> Step :=
  saveSetting SavingTasks "toggleTasksEnabled" None.

Definition togglePopoverEnabled : Component -> Step :=
  saveSetting SavingPopover "togglePopoverEnabled" None.

Definition toggleWeekendsEnabled : Component -> Step :=
  saveSetting SavingWeekend "toggleWeekendsEnabled" None.

Definition toggleWeekNumberEnabled : Component -> Step :=
  saveSetting SavingWeekNumber "toggleWeekNumberEnabled" None.

(** [if (!option) return] comes first; the payload is
    [{ slotDuration: option.value }]. *)
Definition changeSlotDuration (option : JsVal DurationOption) (d : Component) : Step :=
  match option with
  | JsObj o => saveSetting SavingSlotDuration "setSlotDuration" (Some (value o)) d
  | JsNull | JsUndefined => Done d (Fulfilled tt)
  end.

(** The handler of each setting, [changeSlotDuration] with the option the
    user picked. *)
Definition handler (f : SavingFlag) (picked : DurationOption) : Component -> Step :=
  match f with
  | SavingBirthdayCalendar => toggleBirthdayEnabled
  | SavingEventLimit => toggleEventLimitEnabled
  | SavingTasks => toggleTasksEnabled
  | SavingPopover => togglePopoverEnabled
  | SavingSlotDuration => changeSlotDuration (JsObj picked)
  | SavingWeekend => toggleWeekendsEnabled
  | SavingWeekNumber => toggleWeekNumberEnabled
  end.

(** The store action each handler dispatches. *)
Definition dispatched (f : SavingFlag) (picked : DurationOption) : Request :=
  match f with
  | SavingBirthdayCalendar => Dispatch "toggleBirthdayCalendarEnabled" None
  | SavingEventLimit => Dispatch "toggleEventLimitEnabled" None
  | SavingTasks => Dispatch "toggleTasksEnabled" None
  | SavingPopover => Dispatch "togglePopoverEnabled" None
  | SavingSlotDuration => Dispatch "setSlotDuration" (Some (value picked))
  | SavingWeekend => Dispatch "toggleWeekendsEnabled" None
  | SavingWeekNumber => Dispatch "toggleWeekNumberEnabled" None
  end.

(** The [try] of the two copy methods, once the address is known. *)
Definition copyLink (text : string) (d : Component) : Step :=
  Await d (CopyText text)
    (fun outcome d' =>
       match outcome with
       | Fulfilled _ =>
           (d', [ShowSuccess (t "calendar" "CalDAV link copied to clipboard.")],
            Fulfilled tt)
       | Rejected error =>
           (d',
            [ConsoleDebug error;
             ShowError (t "calendar" "CalDAV link could not be copied to clipboard.")],
            Fulfilled tt)
       end).

Definition copyPrimaryCalDAV (d : Component) : Step :=
  copyLink (generateRemoteUrl "dav") d.

(** [new URL(getCurrentUserPrincipal().principalUrl, rootURL)] is evaluated
    before the [try]: what it throws rejects the method. *)
Definition copyAppleCalDAV {Srv} (d : Component) : M (Srv := Srv) Step :=
  let rootURL := generateRemoteUrl "dav" in
  bind (getCurrentUserPrincipal generateRemoteUrl) (fun principal =>
    match principal with
    | Throw e => ret (Done d (Rejected e))
    | Return v =>
        match member v "principalUrl" with
        | Throw e => ret (Done d (Rejected e))
        | Return p =>
            match newURL (principalUrl p) rootURL with
            | Throw e => ret (Done d (Rejected e))
            | Return url => ret (copyLink url d)
            end
        end
    end).

Definition showKeyboardShortcuts (d : Component) : Component :=
  set_displayKeyboardShortcuts true d.

Definition hideKeyboardShortcuts (d : Component) : Component :=
  set_displayKeyboardShortcuts false d.

Definition toggleKeyboardShortcuts (d : Component) : Component :=
  set_displayKeyboardShortcuts (negb (displayKeyboardShortcuts d)) d.

End Methods.

End Settings.

(** ** A small DAV server to run the facade against *)

Module Sample.

(** The collections (by name, under any home) and the principals it knows. *)
Record Server := mkServer {
  collections : list string;
  directory : list Principal;
}.

Definition notFound : Error := mkError "NetworkError" "404 Not Found".
Definition alreadyExists : Error := mkError "NetworkError" "405 already exists".

Definition admin : Principal :=
  mkPrincipal "/remote.php/dav/principals/users/admin/" "admin".
Definition userHome : CalendarHome := mkHome "/remote.php/dav/calendars/admin/".
Definition inbox : ScheduleInbox := mkInbox "/remote.php/dav/calendars/admin/inbox/".
Definition outbox : ScheduleOutbox := mkOutbox "/remote.php/dav/calendars/admin/outbox/".

Definition generateRemoteUrl (service : string) : string :=
  ("/remote.php/" ++ service)%string.
Definition CALDAV_BIRTHDAY_CALENDAR : string := "contact_birthdays".

Definition connect (enableCalDAV : bool) (c : DavClient) (srv : Server)
    : Settled unit * DavClient * Server :=
  (Fulfilled tt,
   {| rootUrl := rootUrl c; requestFactory := requestFactory c;
      currentUserPrincipal := JsObj admin;
      calendarHomes := if enableCalDAV then [userHome] else [];
      publicCalendarHome := publicCalendarHome c |},
   srv).

Definition find (h : CalendarHome) (uri : string) (srv : Server) : Settled (JsVal Calendar) :=
  if decide (uri ∈ collections srv)
  then Fulfilled (JsObj (mkCalendar (home_url h ++ uri)%string uri))
  else Rejected notFound.

Definition create (h : CalendarHome) (displayName : string) (srv : Server)
    : Settled Calendar * Server :=
  (Fulfilled (mkCalendar (home_url h ++ displayName)%string displayName),
   mkServer (displayName :: collections srv) (directory srv)).

(** A [strict] server refuses to enable what is enabled already. *)
Definition enable (strict : bool) (h : CalendarHome) (srv : Server) : Settled unit * Server :=
  if decide (CALDAV_BIRTHDAY_CALENDAR ∈ collections srv) then
    if strict then (Rejected alreadyExists, srv) else (Fulfilled tt, srv)
  else (Fulfilled tt, mkServer (CALDAV_BIRTHDAY_CALENDAR :: collections srv) (directory srv)).

Definition search (query : string) (srv : Server) : Settled (list Principal) :=
  Fulfilled (filter (fun p => String.prefix query (principal_displayname p) = true)
               (directory srv)).

Definition findPrincipal (url : string) (srv : Server) : Settled (JsVal Principal) :=
  match filter (fun p => principalUrl p = url) (directory srv) with
  | p :: _ => Fulfilled (JsObj p)
  | [] => Rejected notFound
  end.

Definition library (strict : bool) : DavLibrary Server :=
  {| lib_connect := connect;
     lib_publicHome := fun c => mkHome (rootUrl c ++ "/public-calendars/")%string;
     lib_findAllCalendars := fun h srv =>
       Fulfilled (map (fun uri => mkCalendar (home_url h ++ uri)%string uri) (collections srv));
     lib_find := find;
     lib_findAllScheduleInboxes := fun _ _ => Fulfilled [inbox];
     lib_findAllScheduleOutboxes := fun _ _ => Fulfilled [outbox];
     lib_createCalendarCollection := fun h displayName _ _ _ _ srv => create h displayName srv;
     lib_createSubscribedCollection := fun h displayName _ _ _ srv => create h displayName srv;
     lib_enableBirthdayCalendar := enable strict;
     lib_principalPropertySearchByDisplayname := search;
     lib_findPrincipal := findPrincipal |}.

(** A server sharing two calendars publicly, with one user. *)
Definition server0 : Server :=
  {| collections := ["tokenA"; "tokenB"]; directory := [admin] |}.

Definition publicHome : CalendarHome := mkHome "/remote.php/dav/public-calendars/".

(** The client of a fresh page, after public and after user initialisation. *)
Definition freshClient : DavClient := newDavClient (generateRemoteUrl "dav") xhrProvider.
Definition publicClient : DavClient := createPublicCalendarHome (library false) freshClient.
Definition userClient : DavClient :=
  {| rootUrl := rootUrl freshClient; requestFactory := requestFactory freshClient;
     currentUserPrincipal := JsObj admin; calendarHomes := [userHome];
     publicCalendarHome := JsNull |}.

(** The module after [initializeClientForPublicView] on a fresh page. *)
Definition publicWorld : World Server :=
  default (boot server0)
    (after (initializeClientForPublicView (library false) generateRemoteUrl) (boot server0)).

(** The module after [initializeClientForUserView] on a fresh page. *)
Definition userWorld (strict : bool) : World Server :=
  default (boot server0)
    (after (initializeClientForUserView (library strict) generateRemoteUrl) (boot server0)).

End Sample.

(** ** A page to run the settings panel on *)

Module SamplePage.

(** Translations that leave the text as it is. *)
Definition t (app text : string) : string := text.

(** Durations in minutes. *)
Definition humanize (locale : string) (ms : Z) : string :=
  if decide (ms = 5 * 60 * 1000)%Z then "5 minutes" else
  if decide (ms = 10 * 60 * 1000)%Z then "10 minutes" else
  if decide (ms = 15 * 60 * 1000)%Z then "15 minutes" else
  if decide (ms = 20 * 60 * 1000)%Z then "20 minutes" else
  if decide (ms = 30 * 60 * 1000)%Z then "30 minutes" else "an hour".

(** Addresses of this server: an absolute path stands for itself. *)
Definition newURL (url base : string) : Completion string := Return url.

(** The panel while the calendars are still loading. *)
Definition loadingPanel : Settings.Component := Settings.data true.

End SamplePage.

(** * Properties *)

Section GetClient.
Context {Srv : Type} (generateRemoteUrl : string -> string).

Lemma getClient_eq (w : World Srv) :
  getClient generateRemoteUrl w =
    match client w with
    | Some c => (c, w)
    | None => (length (heap w), construct generateRemoteUrl w)
    end.
Proof.
  funelim (getClient generateRemoteUrl w).
  - rewrite e. reflexivity.
  - rewrite Hnull. rewrite H. simpl. reflexivity.
Qed.
End GetClient.

Section Singleton.
Context {Srv : Type} (lib : DavLibrary Srv).
Context (generateRemoteUrl : string -> string).
Context (CALDAV_BIRTHDAY_CALENDAR : string).

Local Abbreviation getClient' := (@getClient Srv generateRemoteUrl).
Local Abbreviation settle' := (@settle Srv generateRemoteUrl).
Local Abbreviation self' := (@self Srv generateRemoteUrl).
Local Abbreviation exec' := (exec lib generateRemoteUrl CALDAV_BIRTHDAY_CALENDAR).
Local Abbreviation run' := (run lib generateRemoteUrl CALDAV_BIRTHDAY_CALENDAR).
Local Abbreviation keeps' := (@keeps Srv _).

Lemma news_snoc tr c : news (tr ++ [c]) = news tr + (if isNew c then 1 else 0).
Proof. induction tr as [|d tr IH]; simpl; [lia | rewrite IH; lia]. Qed.

Lemma getClient_born (w : World Srv) : born w -> getClient' w = (0, w).
Proof. intros (Hc & _ & _). rewrite getClient_eq, Hc. reflexivity. Qed.

Lemma getClient_unborn (w : World Srv) : unborn w -> getClient' w = (0, construct generateRemoteUrl w).
Proof. intros (Hc & Hh & _). rewrite getClient_eq, Hc, Hh. reflexivity. Qed.

Lemma construct_born (w : World Srv) : unborn w -> born (construct generateRemoteUrl w).
Proof.
  intros (Hc & Hh & Hn). unfold born, construct, constructions in *. simpl.
  rewrite Hh, news_snoc, Hn. simpl. auto.
Qed.

Lemma settle_born (w : World Srv) : unborn w \/ born w -> born (settle' w) /\ self' w = 0.
Proof.
  unfold settle, self. intros [H | H].
  - rewrite (getClient_unborn w H). simpl. split; [by apply construct_born | done].
  - rewrite (getClient_born w H). done.
Qed.

(** A born world, taken apart. *)
Lemma born_shape (w : World Srv) :
  born w -> exists c srv tr, w = mkWorld (Some 0) [c] srv tr /\ news tr = 1.
Proof.
  destruct w as [cl hp srv tr]. unfold born, constructions. simpl.
  intros (-> & Hl & Hn). destruct hp as [|c [|]]; simpl in Hl; try lia.
  by exists c, srv, tr.
Qed.

Lemma shape_born c (srv : Srv) tr : news tr = 1 -> born (mkWorld (Some 0) [c] srv tr).
Proof. by unfold born, constructions. Qed.

Lemma keeps_ret {A} (a : A) : keeps' (ret a).
Proof. intros c srv tr Hn. by exists a, c, srv, tr. Qed.

Lemma keeps_bind {A B} (m : M A) (k : A -> M B) :
  keeps' m -> (forall a, keeps' (k a)) -> keeps' (bind m k).
Proof.
  intros Hm Hk c srv tr Hn. destruct (Hm c srv tr Hn) as (a & c' & srv' & tr' & Hrun & Hn').
  simpl. rewrite Hrun. by apply Hk.
Qed.

Lemma keeps_getClient {B} (k : Ref -> M B) :
  keeps' (k 0) -> keeps' (bind (total getClient') k).
Proof. intros Hk c srv tr Hn. simpl. rewrite getClient_eq. simpl. by apply Hk. Qed.

Lemma keeps_deref : keeps' (deref 0).
Proof. intros c srv tr Hn. by exists c, c, srv, tr. Qed.

Lemma keeps_store c' : keeps' (store 0 c').
Proof. intros c srv tr Hn. by exists tt, c', srv, tr. Qed.

Lemma keeps_gets {A} (f : World Srv -> A) : keeps' (gets f).
Proof. intros c srv tr Hn. simpl. eauto 10. Qed.

Lemma keeps_put_server srv' : keeps' (put_server srv').
Proof. intros c srv tr Hn. by exists tt, c, srv', tr. Qed.

Lemma keeps_call d : isNew d = false -> keeps' (call d).
Proof.
  intros Hd c srv tr Hn. exists tt, c, srv, (tr ++ [d]).
  split; [done |]. rewrite news_snoc, Hd. lia.
Qed.

Create HintDb keeps.
#[local] Hint Resolve keeps_ret keeps_deref keeps_store keeps_gets keeps_put_server : keeps.
#[local] Hint Extern 1 (keeps (call _)) => (apply keeps_call; reflexivity) : keeps.

Ltac keeps_step :=
  first
    [ apply keeps_getClient
    | apply keeps_bind; [| intros ?]
    | progress auto with keeps
    | match goal with
      | |- keeps (match ?x with _ => _ end) => destruct x
      end ].

Lemma keeps_firstCalendarHome : keeps' (firstCalendarHome generateRemoteUrl).
Proof. unfold firstCalendarHome. repeat keeps_step. Qed.

Lemma keeps_findPromisesLoop tokens :
  forall acc, keeps' (findPromisesLoop lib generateRemoteUrl tokens acc).
Proof.
  induction tokens as [|token rest IH]; intros acc; simpl.
  - apply keeps_ret.
  - repeat keeps_step.
Qed.

Lemma keeps_getBirthdayCalendar :
  keeps' (getBirthdayCalendar lib generateRemoteUrl CALDAV_BIRTHDAY_CALENDAR).
Proof.
  unfold getBirthdayCalendar. apply keeps_bind; [apply keeps_firstCalendarHome | intros v].
  repeat keeps_step.
Qed.

#[local] Hint Resolve keeps_firstCalendarHome keeps_findPromisesLoop
  keeps_getBirthdayCalendar : keeps.

Lemma keeps_total_getClient : keeps' (total getClient').
Proof. intros c srv tr Hn. simpl. rewrite getClient_eq. simpl. eauto 10. Qed.

Lemma keeps_home_op {A} (k : JsVal CalendarHome -> M A) :
  (forall v, keeps' (k v)) -> keeps' (bind (firstCalendarHome generateRemoteUrl) k).
Proof. intros Hk. apply keeps_bind; [apply keeps_firstCalendarHome | done]. Qed.

Lemma after_keeps {A} (m : M A) (w : World Srv) :
  keeps' m -> born w -> exists w', after m w = Some w' /\ born w'.
Proof.
  intros Hm Hb. destruct (born_shape w Hb) as (c & srv & tr & -> & Hn).
  destruct (Hm c srv tr Hn) as (a & c' & srv' & tr' & Hrun & Hn').
  unfold after. rewrite Hrun. eexists. split; [reflexivity | by apply shape_born].
Qed.

(** Whatever is called, the module keeps the client it has. *)
Lemma exec_born o (w : World Srv) : born w -> exists w', exec' o w = Some w' /\ born w'.
Proof.
  intros Hb. destruct o; simpl; (apply after_keeps; [| done]).
  all: unfold initializeClientForUserView, initializeClientForPublicView,
         findAllCalendars, findPublicCalendarsByTokens, findSchedulingInbox,
         findSchedulingOutbox, createCalendar, createSubscription,
         enableBirthdayCalendar, getCurrentUserPrincipal,
         findPrincipalsByDisplayName, findPrincipalByUrl.
  all: try apply keeps_total_getClient.
  all: repeat keeps_step.
Qed.

Lemma run_born ops : forall w : World Srv,
  born w -> exists w', run' ops w = Some w' /\ born w'.
Proof.
  induction ops as [|o ops IH]; intros w Hb; simpl.
  - by exists w.
  - destruct (exec_born o w Hb) as (w1 & -> & Hb1). by apply IH.
Qed.

(** The first call that reaches [getClient] continues as if the client had
    been built just before it. *)
Lemma exec_construct o (w : World Srv) :
  unborn w -> o <> OFindPublicCalendarsByTokens [] ->
  exec' o w = exec' o (construct generateRemoteUrl w).
Proof.
  intros (Hc & Hh & _) Hne. destruct w as [cl hp srv tr]. simpl in *. subst.
  destruct o as [| | | |[|token rest]| | | | | | | | |]; try done.
  all: unfold exec, after, initializeClientForUserView, initializeClientForPublicView,
         findAllCalendars, findPublicCalendarsByTokens, findSchedulingInbox,
         findSchedulingOutbox, createCalendar, createSubscription,
         enableBirthdayCalendar, getBirthdayCalendar, getCurrentUserPrincipal,
         findPrincipalsByDisplayName, findPrincipalByUrl, firstCalendarHome.
  all: cbn -[getClient]; rewrite !getClient_eq; reflexivity.
Qed.

Lemma exec_unborn o (w : World Srv) :
  unborn w -> exists w', exec' o w = Some w' /\ (unborn w' \/ born w').
Proof.
  intros Hu. destruct (decide (o = OFindPublicCalendarsByTokens [])) as [-> | Hne].
  - exists w. split; [reflexivity | by left].
  - rewrite (exec_construct o w Hu Hne).
    destruct (exec_born o _ (construct_born w Hu)) as (w' & -> & Hb). eauto.
Qed.

(** From the unborn module, every history returns and leaves the module
    unborn or born. *)
Lemma run_unborn ops : forall w : World Srv,
  unborn w \/ born w -> exists w', run' ops w = Some w' /\ (unborn w' \/ born w').
Proof.
  induction ops as [|o ops IH]; intros w Hw; simpl.
  - by exists w.
  - destruct Hw as [Hu | Hb].
    + destruct (exec_unborn o w Hu) as (w1 & -> & Hw1). by apply IH.
    + destruct (exec_born o w Hb) as (w1 & -> & Hb1). apply IH. by right.
Qed.

(** Every world the process reaches has a session for the next call. *)
Lemma process_session (srv : Srv) ops :
  exists w c, run' ops (boot srv) = Some w /\ session generateRemoteUrl w = Some c.
Proof.
  destruct (run_unborn ops (boot srv)) as (w & Hrun & Hw); [by left |].
  destruct (settle_born w Hw) as (Hb & Hself).
  destruct (born_shape _ Hb) as (c & srv' & tr & Hshape & _).
  exists w, c. split; [exact Hrun |].
  unfold session. fold (settle' w). fold (self' w). by rewrite Hself, Hshape.
Qed.

(** C1.  [getClient] is an idempotent lazy singleton.  Its recursion
    terminates: a call that finds no client assigns one and makes a single
    self-call, which finds the client just assigned and constructs nothing.
    Whatever the process did before ([before]) and does between two calls
    ([between]), every call into the module returns, [getClient] returns the
    same instance (the object at address 0) each time, and the [DavClient]
    constructor has run at most once before the first call and exactly once
    after it. *)
Theorem getClient_lazy_singleton (srv : Srv) (before between : list Op) :
  (forall w : World Srv, client w = None ->
     pending (construct generateRemoteUrl w) < pending w /\
     getClient' w = getClient' (construct generateRemoteUrl w) /\
     getClient' (construct generateRemoteUrl w)
       = (length (heap w), construct generateRemoteUrl w)) /\
  (forall (w : World Srv) c, client w = Some c -> getClient' w = (c, w)) /\
  exists w1 w2,
    run' before (boot srv) = Some w1 /\
    run' between (settle' w1) = Some w2 /\
    self' w1 = 0 /\ self' (settle' w1) = 0 /\ self' w2 = 0 /\
    settle' w2 = w2 /\
    constructions w1 <= 1 /\
    constructions (settle' w1) = 1 /\
    constructions w2 = 1 /\
    length (heap w2) = 1.
Proof.
  split; [| split].
  - intros w Hc. unfold pending. rewrite !getClient_eq, Hc. simpl. auto.
  - intros w c Hc. by rewrite getClient_eq, Hc.
  - assert (Hboot : unborn (boot srv) \/ born (boot srv)) by (left; done).
    destruct (run_unborn before _ Hboot) as (w1 & Hrun1 & Hw1).
    destruct (settle_born w1 Hw1) as (Hb1 & Hself1).
    destruct (run_born between _ Hb1) as (w2 & Hrun2 & Hb2).
    destruct (settle_born (settle' w1) (or_intror Hb1)) as (_ & Hself1').
    destruct (settle_born w2 (or_intror Hb2)) as (_ & Hself2).
    exists w1, w2. repeat split; try done.
    + unfold settle. by rewrite (getClient_born w2 Hb2).
    + destruct Hw1 as [(_ & _ & ->) | (_ & _ & ->)]; lia.
    + by destruct Hb1 as (_ & _ & ?).
    + by destruct Hb2 as (_ & _ & ?).
    + by destruct Hb2 as (_ & ? & _).
Qed.

End Singleton.

Section Session.
Context {Srv : Type} (lib : DavLibrary Srv).
Context (generateRemoteUrl : string -> string).

Local Abbreviation getClient' := (@getClient Srv generateRemoteUrl).
Local Abbreviation settle' := (@settle Srv generateRemoteUrl).
Local Abbreviation self' := (@self Srv generateRemoteUrl).
Local Abbreviation session' := (@session Srv generateRemoteUrl).

Lemma getClient_pair (w : World Srv) : getClient' w = (self' w, settle' w).
Proof. unfold self, settle. by destruct (getClient' w). Qed.

Lemma client_settle (w : World Srv) : client (settle' w) = Some (self' w).
Proof.
  unfold settle, self. rewrite getClient_eq.
  destruct (client w) eqn:Hc; simpl; [exact Hc | reflexivity].
Qed.

Lemma server_settle (w : World Srv) : server (settle' w) = server w.
Proof. unfold settle. rewrite getClient_eq. by destruct (client w). Qed.

Lemma getClient_settle (w : World Srv) : getClient' (settle' w) = (self' w, settle' w).
Proof. by rewrite getClient_eq, client_settle. Qed.

Lemma settle_ready (w : World Srv) r : client w = Some r -> settle' w = w /\ self' w = r.
Proof. intros Hc. unfold settle, self. by rewrite getClient_eq, Hc. Qed.

Lemma session_fresh (w : World Srv) :
  client w = None ->
  session' w = Some (newDavClient (generateRemoteUrl "dav") xhrProvider).
Proof.
  intros Hc. unfold session, settle, self. rewrite getClient_eq, Hc. simpl.
  by rewrite list_lookup_middle.
Qed.

End Session.

Section PublicCalendars.
Context {Srv : Type} (lib : DavLibrary Srv).
Context (generateRemoteUrl : string -> string).

Local Abbreviation getClient' := (@getClient Srv generateRemoteUrl).
Local Abbreviation settle' := (@settle Srv generateRemoteUrl).
Local Abbreviation self' := (@self Srv generateRemoteUrl).
Local Abbreviation session' := (@session Srv generateRemoteUrl).
Local Abbreviation byTokens := (findPublicCalendarsByTokens lib generateRemoteUrl).

(** The promise of one token, with its [catch] attached. *)
Local Abbreviation caught h srv :=
  (fun token : string => catch_with (lib_find lib h token srv) (@JsNull Calendar)).

Lemma promise_all_caught h (srv : Srv) tokens :
  promise_all (map (caught h srv) tokens) = Fulfilled (map (resolution lib h srv) tokens).
Proof.
  induction tokens as [|token rest IH]; simpl; [reflexivity |].
  rewrite IH. unfold resolution. by destruct (lib_find lib h token srv).
Qed.

Lemma traced_traced (w : World Srv) l1 l2 : traced (traced w l1) l2 = traced w (l1 ++ l2).
Proof. unfold traced. simpl. by rewrite <- app_assoc. Qed.

(** The loop, once the client exists and has a public calendar home. *)
Lemma findPromisesLoop_ready tokens :
  forall acc (w : World Srv) r c h,
    client w = Some r -> heap w !! r = Some c -> publicCalendarHome c = JsObj h ->
    findPromisesLoop lib generateRemoteUrl tokens acc w
      = Some (Return (acc ++ map (caught h (server w)) tokens),
              traced w (map (CFind h) tokens)).
Proof.
  induction tokens as [|token rest IH]; intros acc w r c h Hc Hh Hp; simpl.
  - rewrite app_nil_r. unfold traced. rewrite app_nil_r. by destruct w.
  - rewrite getClient_eq, Hc. simpl. rewrite Hh, Hp. simpl.
    change (mkWorld (client w) (heap w) (server w) (trace w ++ [CFind h token]))
      with (traced w [CFind h token]).
    rewrite (IH _ (traced w [CFind h token]) r c h Hc Hh Hp). simpl.
    by rewrite traced_traced, <- app_assoc.
Qed.

Lemma filter_resolution h (srv : Srv) tokens :
  filter (fun calendar => calendar <> JsNull) (map (resolution lib h srv) tokens)
    = map (resolution lib h srv) (filter (accepted lib h srv) tokens).
Proof.
  induction tokens as [|token rest IH]; [reflexivity |].
  simpl. rewrite !filter_cons. unfold accepted at 1.
  destruct (decide (resolution lib h srv token <> JsNull)); simpl; by rewrite IH.
Qed.

Lemma filter_accepted h (srv : Srv) tokens :
  Forall (accepted lib h srv) tokens -> filter (accepted lib h srv) tokens = tokens.
Proof.
  induction 1 as [|token rest Hok _ IH]; [reflexivity |].
  by rewrite filter_cons_True, IH.
Qed.

(** What [findPublicCalendarsByTokens] returns and leaves behind on a
    session that has a public calendar home. *)
Lemma findPublicCalendarsByTokens_eq (w : World Srv) c h tokens :
  session' w = Some c -> publicCalendarHome c = JsObj h ->
  byTokens tokens w
    = Some (Fulfilled (filter (fun calendar => calendar <> JsNull)
                         (map (resolution lib h (server w)) tokens)),
            match tokens with
            | [] => w
            | _ => traced (settle' w) (map (CFind h) tokens)
            end).
Proof.
  intros Hs Hp. unfold findPublicCalendarsByTokens, bind.
  destruct tokens as [|token rest]; [reflexivity |].
  assert (Hloop : findPromisesLoop lib generateRemoteUrl (token :: rest) [] w
                  = findPromisesLoop lib generateRemoteUrl (token :: rest) [] (settle' w)).
  { simpl. by rewrite getClient_settle, getClient_pair. }
  rewrite Hloop.
  rewrite (findPromisesLoop_ready (token :: rest) [] (settle' w) (self' w) c h
             (client_settle generateRemoteUrl w) Hs Hp).
  rewrite app_nil_l, promise_all_caught, server_settle. reflexivity.
Qed.

(** Without a public calendar home the first token already fails. *)
Lemma findPublicCalendarsByTokens_no_home (w : World Srv) c token rest :
  session' w = Some c -> publicCalendarHome c = JsNull ->
  byTokens (token :: rest) w = Some (Rejected (cannotRead "null" "find"), settle' w).
Proof.
  intros Hs Hp. unfold findPublicCalendarsByTokens, bind. simpl.
  rewrite getClient_pair. unfold session in Hs. by rewrite Hs, Hp.
Qed.

(** C2.  On a session with a public calendar home, for every list of tokens
    [findPublicCalendarsByTokens] is fulfilled, never rejected: with one entry
    per token the server accepted, so at most as many entries as tokens; a
    token whose lookup is rejected contributes nothing, so that [n] accepted
    tokens with one rejected token among them yield exactly [n] entries. *)
Theorem findPublicCalendarsByTokens_partial_failure (w : World Srv) c h tokens :
  session' w = Some c -> publicCalendarHome c = JsObj h ->
  exists calendars w',
    byTokens tokens w = Some (Fulfilled calendars, w') /\
    calendars = map (resolution lib h (server w)) (filter (accepted lib h (server w)) tokens) /\
    length calendars = length (filter (accepted lib h (server w)) tokens) /\
    length calendars <= length tokens /\
    (forall valid1 invalid valid2 e,
       tokens = valid1 ++ invalid :: valid2 ->
       Forall (accepted lib h (server w)) (valid1 ++ valid2) ->
       lib_find lib h invalid (server w) = Rejected e ->
       length calendars = length (valid1 ++ valid2)).
Proof.
  intros Hs Hp. eexists _, _. split; [exact (findPublicCalendarsByTokens_eq w c h tokens Hs Hp) |].
  rewrite filter_resolution, length_map. repeat split.
  - apply length_filter.
  - intros valid1 invalid valid2 e -> Hall Hrej.
    apply Forall_app in Hall as [H1 H2].
    rewrite filter_app, filter_cons_False, !length_app.
    + by rewrite !filter_accepted by done.
    + unfold accepted, resolution. rewrite Hrej. by intros [].
Qed.

(** C9.  The results of [findPublicCalendarsByTokens] are the resolutions of
    the tokens with the failures filtered out in place: a subsequence of the
    per-token resolutions in the order of the input, and the same list for
    any other session whose server answers the tokens the same way. *)
Theorem findPublicCalendarsByTokens_order (w : World Srv) c h tokens :
  session' w = Some c -> publicCalendarHome c = JsObj h ->
  exists calendars w',
    byTokens tokens w = Some (Fulfilled calendars, w') /\
    calendars = filter (fun calendar => calendar <> JsNull)
                  (map (resolution lib h (server w)) tokens) /\
    sublist calendars (map (resolution lib h (server w)) tokens) /\
    (forall (w2 : World Srv) c2 h2,
       session' w2 = Some c2 -> publicCalendarHome c2 = JsObj h2 ->
       Forall (fun token => lib_find lib h2 token (server w2) = lib_find lib h token (server w))
         tokens ->
       exists w2', byTokens tokens w2 = Some (Fulfilled calendars, w2')).
Proof.
  intros Hs Hp. eexists _, _. split; [exact (findPublicCalendarsByTokens_eq w c h tokens Hs Hp) |].
  repeat split.
  - apply sublist_filter.
  - intros w2 c2 h2 Hs2 Hp2 Hsame. eexists.
    rewrite (findPublicCalendarsByTokens_eq w2 c2 h2 tokens Hs2 Hp2).
    assert (Hmap : map (resolution lib h2 (server w2)) tokens
                   = map (resolution lib h (server w)) tokens).
    { apply map_ext_Forall. eapply Forall_impl; [exact Hsame |].
      intros token Heq. unfold resolution. by rewrite Heq. }
    by rewrite Hmap.
Qed.

End PublicCalendars.

Section Operations.
Context {Srv : Type} (lib : DavLibrary Srv).
Context (generateRemoteUrl : string -> string).
Context (CALDAV_BIRTHDAY_CALENDAR : string).

Local Abbreviation getClient' := (@getClient Srv generateRemoteUrl).
Local Abbreviation settle' := (@settle Srv generateRemoteUrl).
Local Abbreviation self' := (@self Srv generateRemoteUrl).
Local Abbreviation session' := (@session Srv generateRemoteUrl).

(** Once settled, a world keeps its session while only the server and the
    trace move. *)
Lemma served_settled (w : World Srv) srv calls :
  settle' (served (settle' w) srv calls) = served (settle' w) srv calls /\
  self' (served (settle' w) srv calls) = self' w /\
  session' (served (settle' w) srv calls) = session' w.
Proof.
  assert (Hc : client (served (settle' w) srv calls) = Some (self' w))
    by apply client_settle.
  destruct (settle_ready generateRemoteUrl _ _ Hc) as [Hset Hself].
  unfold session. by rewrite Hset, Hself.
Qed.

Lemma js_index_Some {A} (arr : list A) i a : arr !! i = Some a -> js_index arr i = JsObj a.
Proof. intros H. unfold js_index. by rewrite H. Qed.

Lemma firstCalendarHome_eq (w : World Srv) c :
  session' w = Some c ->
  firstCalendarHome generateRemoteUrl w = Some (js_index (calendarHomes c) 0, settle' w).
Proof.
  intros Hs. unfold firstCalendarHome. simpl. rewrite getClient_pair.
  unfold session in Hs. by rewrite Hs.
Qed.

Lemma getCurrentUserPrincipal_eq (w : World Srv) c :
  session' w = Some c ->
  getCurrentUserPrincipal generateRemoteUrl w
    = Some (Return (currentUserPrincipal c), settle' w).
Proof.
  intros Hs. unfold getCurrentUserPrincipal. simpl. rewrite getClient_pair.
  unfold session in Hs. by rewrite Hs.
Qed.

Lemma findPrincipalsByDisplayName_eq (w : World Srv) query :
  findPrincipalsByDisplayName lib generateRemoteUrl query w
    = Some (lib_principalPropertySearchByDisplayname lib query (server w),
            traced (settle' w) [CPrincipalPropertySearchByDisplayname query]).
Proof.
  unfold findPrincipalsByDisplayName, traced. simpl. rewrite getClient_pair. simpl.
  by rewrite server_settle.
Qed.

Lemma initializeClientForPublicView_eq (w : World Srv) c :
  session' w = Some c ->
  initializeClientForPublicView lib generateRemoteUrl w
    = Some (Fulfilled tt,
            mutated (traced (settle' w) [CCreatePublicCalendarHome]) (self' w)
              (createPublicCalendarHome lib c)).
Proof.
  intros Hs. unfold initializeClientForPublicView, mutated, traced. simpl.
  rewrite getClient_pair.
  unfold session in Hs. simpl. rewrite Hs. simpl. by rewrite Hs.
Qed.

Lemma initializeClientForUserView_eq (w : World Srv) c :
  session' w = Some c ->
  initializeClientForUserView lib generateRemoteUrl w
    = let '(res, c', srv') := lib_connect lib true c (server w) in
      Some (res, mutated (served (settle' w) srv' [CConnect true]) (self' w) c').
Proof.
  intros Hs. unfold initializeClientForUserView, mutated, served. simpl.
  rewrite getClient_pair.
  unfold session in Hs. simpl. rewrite Hs, server_settle.
  destruct (lib_connect lib true c (server w)) as [[res c'] srv']. simpl.
  by rewrite Hs.
Qed.

Local Abbreviation fails := (home_access_fails lib generateRemoteUrl CALDAV_BIRTHDAY_CALENDAR).
Local Abbreviation reaches := (home_access_reaches lib generateRemoteUrl CALDAV_BIRTHDAY_CALENDAR).

Lemma getBirthdayCalendar_eq (w : World Srv) c h :
  session' w = Some c -> calendarHomes c !! 0 = Some h ->
  getBirthdayCalendar lib generateRemoteUrl CALDAV_BIRTHDAY_CALENDAR w
    = Some (lib_find lib h CALDAV_BIRTHDAY_CALENDAR (server w),
            traced (settle' w) [CFind h CALDAV_BIRTHDAY_CALENDAR]).
Proof.
  intros Hs Hh. unfold getBirthdayCalendar, bind, traced.
  rewrite (firstCalendarHome_eq w c Hs). unfold js_index. rewrite Hh. simpl.
  by rewrite server_settle.
Qed.

Lemma enableBirthdayCalendar_eq (w : World Srv) c h :
  session' w = Some c -> calendarHomes c !! 0 = Some h ->
  enableBirthdayCalendar lib generateRemoteUrl CALDAV_BIRTHDAY_CALENDAR w
    = enable_then_fetch lib generateRemoteUrl CALDAV_BIRTHDAY_CALENDAR w h.
Proof.
  intros Hs Hh. unfold enableBirthdayCalendar, enable_then_fetch, bind.
  rewrite (firstCalendarHome_eq w c Hs). unfold js_index. rewrite Hh. simpl.
  rewrite server_settle.
  destruct (lib_enableBirthdayCalendar lib h (server w)) as [[[]|e] srv']; simpl.
  - change (mkWorld (client (settle' w)) (heap (settle' w)) srv'
              (trace (settle' w) ++ [CEnableBirthdayCalendar h]))
      with (served (settle' w) srv' [CEnableBirthdayCalendar h]).
    destruct (served_settled w srv' [CEnableBirthdayCalendar h])
      as (Hset & _ & Hses).
    rewrite (getBirthdayCalendar_eq _ c h (eq_trans Hses Hs) Hh), Hset.
    unfold traced, served. simpl. by rewrite <- app_assoc.
  - reflexivity.
Qed.

Lemma home_reaches (w : World Srv) c h :
  session' w = Some c -> calendarHomes c !! 0 = Some h -> reaches w h.
Proof.
  intros Hs Hh. unfold home_access_reaches. repeat split; intros.
  6: by apply (enableBirthdayCalendar_eq w c h).
  6: by apply (getBirthdayCalendar_eq w c h).
  all: unfold findAllCalendars, findSchedulingInbox, findSchedulingOutbox,
         createCalendar, createSubscription, bind, traced, served.
  all: rewrite (firstCalendarHome_eq w c Hs); unfold js_index; rewrite Hh; simpl.
  all: rewrite ?server_settle.
  all: try done.
  - by destruct (lib_findAllScheduleInboxes lib h (server w)).
  - by destruct (lib_findAllScheduleOutboxes lib h (server w)).
  - by destruct (lib_createCalendarCollection _ _ _ _ _ _ _ _).
  - by destruct (lib_createSubscribedCollection _ _ _ _ _ _ _).
Qed.

Lemma home_fails (w : World Srv) c :
  session' w = Some c -> calendarHomes c = [] -> fails w.
Proof.
  intros Hs Hh. unfold home_access_fails. repeat split; intros.
  all: unfold findAllCalendars, findSchedulingInbox, findSchedulingOutbox,
         createCalendar, createSubscription, enableBirthdayCalendar,
         getBirthdayCalendar, bind.
  all: rewrite (firstCalendarHome_eq w c Hs); unfold js_index; by rewrite Hh.
Qed.

Lemma traced_served (w : World Srv) calls : traced w calls = served w (server w) calls.
Proof. reflexivity. Qed.

(** A settled world keeps being settled when the session object is replaced. *)
Lemma mutated_settled (w : World Srv) c srv calls c' :
  session' w = Some c ->
  settle' (mutated (served (settle' w) srv calls) (self' w) c')
    = mutated (served (settle' w) srv calls) (self' w) c' /\
  self' (mutated (served (settle' w) srv calls) (self' w) c') = self' w /\
  session' (mutated (served (settle' w) srv calls) (self' w) c') = Some c'.
Proof.
  intros Hs.
  assert (Hc : client (mutated (served (settle' w) srv calls) (self' w) c') = Some (self' w))
    by apply client_settle.
  destruct (settle_ready generateRemoteUrl _ _ Hc) as [Hset Hself].
  unfold session. rewrite Hset, Hself. repeat split. simpl.
  apply list_lookup_insert_eq. by apply (lookup_lt_Some _ _ c).
Qed.

(** C3 (as amended).  After [initializeClientForPublicView],
    [getCurrentUserPrincipal] throws nothing: it returns the
    [currentUserPrincipal] field of the client, which public initialisation
    leaves as it found it, and which is [null] when the client was built by
    that initialisation. *)
Theorem getCurrentUserPrincipal_public_mode (w : World Srv) c :
  session' w = Some c ->
  exists w1,
    initializeClientForPublicView lib generateRemoteUrl w = Some (Fulfilled tt, w1) /\
    getCurrentUserPrincipal generateRemoteUrl w1
      = Some (Return (currentUserPrincipal c), w1) /\
    (client w = None -> currentUserPrincipal c = JsNull).
Proof.
  intros Hs. eexists. split; [exact (initializeClientForPublicView_eq w c Hs) |].
  destruct (mutated_settled w c (server (settle' w)) [CCreatePublicCalendarHome]
              (createPublicCalendarHome lib c) Hs) as (Hset & _ & Hses).
  split.
  - rewrite traced_served, (getCurrentUserPrincipal_eq _ _ Hses). by rewrite Hset.
  - intros Hnull. rewrite (session_fresh generateRemoteUrl w Hnull) in Hs.
    by inversion Hs.
Qed.

(** C6 (as amended).  [findPrincipalsByDisplayName] hands every query, the
    empty string included, to the server-side property search unchanged and
    returns what the search answers; it makes that one request and no other
    beyond building the client. *)
Theorem findPrincipalsByDisplayName_pass_through (w : World Srv) query :
  exists w',
    findPrincipalsByDisplayName lib generateRemoteUrl query w
      = Some (lib_principalPropertySearchByDisplayname lib query (server w), w') /\
    trace w' = trace (settle' w) ++ [CPrincipalPropertySearchByDisplayname query] /\
    server w' = server w.
Proof.
  eexists. split; [apply findPrincipalsByDisplayName_eq |].
  split; [reflexivity | apply server_settle].
Qed.

(** C8.  [initializeClientForPublicView] establishes the public calendar home
    and nothing else: beyond building the client if there was none, its only
    library call is [_createPublicCalendarHome], so no connect and no
    discovery; the server, the module variable, the principal, the calendar
    homes and the constructor arguments of the client stay as they were, and
    so does every other object.  [initializeClientForUserView] is the one
    that connects. *)
Theorem initializeClientForPublicView_frame (w : World Srv) c :
  session' w = Some c ->
  exists w' c',
    initializeClientForPublicView lib generateRemoteUrl w = Some (Fulfilled tt, w') /\
    trace w' = trace w
               ++ match client w with
                  | Some _ => []
                  | None => [CNew (generateRemoteUrl "dav")]
                  end
               ++ [CCreatePublicCalendarHome] /\
    (forall enableCalDAV, CConnect enableCalDAV ∈ trace w' -> CConnect enableCalDAV ∈ trace w) /\
    server w' = server w /\
    client w' = client (settle' w) /\
    session' w' = Some c' /\
    publicCalendarHome c' = JsObj (lib_publicHome lib c) /\
    currentUserPrincipal c' = currentUserPrincipal c /\
    calendarHomes c' = calendarHomes c /\
    rootUrl c' = rootUrl c /\
    requestFactory c' = requestFactory c /\
    (forall r, r <> self' w -> heap w' !! r = heap (settle' w) !! r) /\
    (exists res wu,
       initializeClientForUserView lib generateRemoteUrl w = Some (res, wu) /\
       CConnect true ∈ trace wu).
Proof.
  intros Hs. eexists _, (createPublicCalendarHome lib c).
  split; [exact (initializeClientForPublicView_eq w c Hs) |].
  destruct (mutated_settled w c (server (settle' w)) [CCreatePublicCalendarHome]
              (createPublicCalendarHome lib c) Hs) as (_ & _ & Hses).
  assert (Htr : trace (settle' w)
                = trace w ++ match client w with
                             | Some _ => []
                             | None => [CNew (generateRemoteUrl "dav")]
                             end).
  { unfold settle. rewrite getClient_eq. destruct (client w); simpl; [by rewrite app_nil_r | done]. }
  repeat split; try done.
  - simpl. by rewrite Htr, <- app_assoc.
  - simpl. rewrite Htr. intros b. rewrite !elem_of_app.
    intros [[H | H] | H]; [done | |].
    + destruct (client w); [by apply elem_of_nil in H |].
      apply list_elem_of_singleton in H. discriminate.
    + apply list_elem_of_singleton in H. discriminate.
  - simpl. apply server_settle.
  - intros r Hr. simpl. by apply list_lookup_insert_ne.
  - rewrite (initializeClientForUserView_eq w c Hs).
    destruct (lib_connect lib true c (server w)) as [[res cu] srvu].
    eexists _, _. split; [reflexivity |]. simpl.
    apply elem_of_app. right. by apply list_elem_of_singleton.
Qed.

(** C5.  [findSchedulingInbox] asks the first calendar home for all its
    scheduling inboxes and returns the first of them; when the list is empty
    it is fulfilled with [undefined], not rejected.  [findSchedulingOutbox]
    does the same with the outboxes. *)
Theorem findSchedulingInbox_first (w : World Srv) c h inboxes outboxes :
  session' w = Some c -> calendarHomes c !! 0 = Some h ->
  lib_findAllScheduleInboxes lib h (server w) = Fulfilled inboxes ->
  lib_findAllScheduleOutboxes lib h (server w) = Fulfilled outboxes ->
  findSchedulingInbox lib generateRemoteUrl w
    = Some (Fulfilled (js_index inboxes 0),
            traced (settle' w) [CFindAllScheduleInboxes h]) /\
  findSchedulingOutbox lib generateRemoteUrl w
    = Some (Fulfilled (js_index outboxes 0),
            traced (settle' w) [CFindAllScheduleOutboxes h]) /\
  (inboxes = [] -> js_index inboxes 0 = JsUndefined) /\
  (forall first others, inboxes = first :: others -> js_index inboxes 0 = JsObj first) /\
  (outboxes = [] -> js_index outboxes 0 = JsUndefined) /\
  (forall first others, outboxes = first :: others -> js_index outboxes 0 = JsObj first).
Proof.
  intros Hs Hh Hin Hout.
  unfold findSchedulingInbox, findSchedulingOutbox, bind, traced.
  rewrite (firstCalendarHome_eq w c Hs), (js_index_Some _ _ _ Hh). simpl.
  rewrite server_settle, Hin, Hout.
  repeat split; by intros; subst.
Qed.

(** C10.  Each of the seven home-scoped operations reads
    [calendarHomes[0]] unguarded.  On a session whose first calendar home is
    [h] the access succeeds and the operation hands back what the library
    answers for [h]; on a session without calendar homes the operation throws
    (a TypeError, as a rejection in the async ones) instead of returning an
    absent value.  A client the module has just built has no calendar homes,
    and [initializeClientForPublicView] gives it none, so the operations
    throw on an uninitialised and on a public-mode session. *)
Theorem home_scoped_operations_first_home (w : World Srv) c :
  session' w = Some c ->
  (forall h, calendarHomes c !! 0 = Some h -> reaches w h) /\
  (calendarHomes c = [] -> fails w) /\
  (client w = None -> calendarHomes c = [] /\ fails w) /\
  (exists w',
     initializeClientForPublicView lib generateRemoteUrl w = Some (Fulfilled tt, w') /\
     (calendarHomes c = [] -> fails w')).
Proof.
  intros Hs. split; [| split; [| split]].
  - intros h Hh. by apply (home_reaches w c h).
  - by apply home_fails.
  - intros Hnull.
    assert (Hh : calendarHomes c = []).
    { rewrite (session_fresh generateRemoteUrl w Hnull) in Hs. by inversion Hs. }
    split; [done | by apply (home_fails w c)].
  - eexists. split; [exact (initializeClientForPublicView_eq w c Hs) |].
    intros Hh.
    destruct (mutated_settled w c (server (settle' w)) [CCreatePublicCalendarHome]
                (createPublicCalendarHome lib c) Hs) as (_ & _ & Hses).
    by apply (home_fails _ _ Hses).
Qed.

(** C4 (as amended).  [enableBirthdayCalendar] is an enable-then-fetch: it
    sends the enable request for the first calendar home and, when the server
    fulfils it, returns what [getBirthdayCalendar] then finds; when the server
    rejects the request, that rejection is the result and nothing is fetched.
    A second call in succession does the same against the server state the
    first call left: it returns the same calendar whenever the server fulfils
    the second request and answers the lookup as before. *)
Theorem enableBirthdayCalendar_enable_then_fetch (w : World Srv) c h res1 srv1 res2 srv2 :
  session' w = Some c -> calendarHomes c !! 0 = Some h ->
  lib_enableBirthdayCalendar lib h (server w) = (res1, srv1) ->
  lib_enableBirthdayCalendar lib h srv1 = (res2, srv2) ->
  exists w1 w2,
    enableBirthdayCalendar lib generateRemoteUrl CALDAV_BIRTHDAY_CALENDAR w
      = Some (match res1 with
              | Fulfilled _ => lib_find lib h CALDAV_BIRTHDAY_CALENDAR srv1
              | Rejected e => Rejected e
              end, w1) /\
    (res1 = Fulfilled tt ->
       getBirthdayCalendar lib generateRemoteUrl CALDAV_BIRTHDAY_CALENDAR
         (served (settle' w) srv1 [CEnableBirthdayCalendar h])
       = Some (lib_find lib h CALDAV_BIRTHDAY_CALENDAR srv1, w1)) /\
    (forall e, res1 = Rejected e ->
       trace w1 = trace (settle' w) ++ [CEnableBirthdayCalendar h]) /\
    enableBirthdayCalendar lib generateRemoteUrl CALDAV_BIRTHDAY_CALENDAR w1
      = Some (match res2 with
              | Fulfilled _ => lib_find lib h CALDAV_BIRTHDAY_CALENDAR srv2
              | Rejected e => Rejected e
              end, w2) /\
    (res1 = Fulfilled tt -> res2 = Fulfilled tt ->
       lib_find lib h CALDAV_BIRTHDAY_CALENDAR srv2
         = lib_find lib h CALDAV_BIRTHDAY_CALENDAR srv1 ->
       fst <$> enableBirthdayCalendar lib generateRemoteUrl CALDAV_BIRTHDAY_CALENDAR w1
         = fst <$> enableBirthdayCalendar lib generateRemoteUrl CALDAV_BIRTHDAY_CALENDAR w).
Proof.
  intros Hs Hh H1 H2.
  pose (calls1 := match res1 with
                  | Fulfilled _ => [CEnableBirthdayCalendar h; CFind h CALDAV_BIRTHDAY_CALENDAR]
                  | Rejected _ => [CEnableBirthdayCalendar h]
                  end).
  assert (Hfirst : enableBirthdayCalendar lib generateRemoteUrl CALDAV_BIRTHDAY_CALENDAR w
                   = Some (match res1 with
                           | Fulfilled _ => lib_find lib h CALDAV_BIRTHDAY_CALENDAR srv1
                           | Rejected e => Rejected e
                           end, served (settle' w) srv1 calls1)).
  { rewrite (enableBirthdayCalendar_eq w c h Hs Hh). unfold enable_then_fetch.
    rewrite H1. by destruct res1. }
  destruct (served_settled w srv1 calls1) as (Hset1 & _ & Hses1).
  assert (Hsecond : exists w2,
            enableBirthdayCalendar lib generateRemoteUrl CALDAV_BIRTHDAY_CALENDAR
              (served (settle' w) srv1 calls1)
            = Some (match res2 with
                    | Fulfilled _ => lib_find lib h CALDAV_BIRTHDAY_CALENDAR srv2
                    | Rejected e => Rejected e
                    end, w2)).
  { rewrite (enableBirthdayCalendar_eq _ c h (eq_trans Hses1 Hs) Hh).
    unfold enable_then_fetch. simpl. rewrite H2. destruct res2; eauto. }
  destruct Hsecond as (w2 & Hsecond).
  exists (served (settle' w) srv1 calls1), w2. repeat split; try done.
  - intros ->.
    destruct (served_settled w srv1 [CEnableBirthdayCalendar h]) as (Hset & _ & Hses).
    rewrite (getBirthdayCalendar_eq _ c h (eq_trans Hses Hs) Hh), Hset.
    unfold traced, served. simpl. by rewrite <- app_assoc.
  - by intros e ->.
  - intros -> -> Hsame. rewrite Hfirst, Hsecond. simpl. by rewrite Hsame.
Qed.

End Operations.

Section HeaderProvider.
Context {Srv : Type} (generateRemoteUrl : string -> string).

Lemma setRequestHeaders_opened hs :
  forall s, readyState s = 1 ->
    exists s', setRequestHeaders hs s = Return s' /\
               readyState s' = 1 /\
               requestHeaders s' = requestHeaders s ++ hs /\
               xhr_target s' = xhr_target s.
Proof.
  induction hs as [|[name value] hs IH]; intros s Hopen; simpl.
  - exists s. by rewrite app_nil_r.
  - unfold setRequestHeader. rewrite decide_True by done.
    destruct (IH (mkXHRState (readyState s) (xhr_target s)
                    (requestHeaders s ++ [(name, value)]) (errorProcessing s)) Hopen)
      as (s' & -> & Hopen' & Hhs & Htarget).
    exists s'. simpl in *. by rewrite Hhs, <- app_assoc.
Qed.

(** C7.  The client [getClient] builds keeps the header provider of its
    construction, and every request issued through that provider is sent
    with the request token header and the caching hint header (and
    X-Requested-With) in front of whatever headers the transport adds. *)
Theorem every_request_carries_headers (srv : Srv) token method url extra :
  exists c sent,
    session generateRemoteUrl (boot srv) = Some c /\
    requestFactory c = xhrProvider /\
    issueRequest (requestFactory c) token method url extra = Return sent /\
    xhr_target sent = Some (method, url) /\
    requestHeaders sent = headers token ++ extra /\
    ("requesttoken", token) ∈ requestHeaders sent /\
    ("X-NC-CalDAV-Webcal-Caching", "On") ∈ requestHeaders sent.
Proof.
  exists (newDavClient (generateRemoteUrl "dav") xhrProvider).
  unfold issueRequest. simpl.
  destruct (setRequestHeaders_opened extra
              (mkXHRState 1 (Some (method, url)) (headers token) true) eq_refl)
    as (sent & Hsent & _ & Hhs & Htarget).
  exists sent. simpl in *.
  split; [by apply session_fresh |]. split; [done |].
  split; [exact Hsent |]. split; [done |]. split; [done |].
  rewrite Hhs. split; apply list_elem_of_In; simpl; auto.
Qed.

End HeaderProvider.

(** * Further properties of the facade *)

Section Compositions.
Context {Srv : Type} (lib : DavLibrary Srv).
Context (generateRemoteUrl : string -> string).
Context (CALDAV_BIRTHDAY_CALENDAR : string).

Local Abbreviation settle' := (@settle Srv generateRemoteUrl).
Local Abbreviation self' := (@self Srv generateRemoteUrl).
Local Abbreviation session' := (@session Srv generateRemoteUrl).
Local Abbreviation byTokens := (findPublicCalendarsByTokens lib generateRemoteUrl).
Local Abbreviation fails := (home_access_fails lib generateRemoteUrl CALDAV_BIRTHDAY_CALENDAR).
Local Abbreviation reaches := (home_access_reaches lib generateRemoteUrl CALDAV_BIRTHDAY_CALENDAR).

Lemma trace_settle (w : World Srv) :
  trace (settle' w) = trace w ++ match client w with
                                 | Some _ => []
                                 | None => [CNew (generateRemoteUrl "dav")]
                                 end.
Proof.
  unfold settle. rewrite getClient_eq. destruct (client w); simpl; [by rewrite app_nil_r | done].
Qed.

Lemma findPrincipalByUrl_eq (w : World Srv) url :
  findPrincipalByUrl lib generateRemoteUrl url w
    = Some (lib_findPrincipal lib url (server w), traced (settle' w) [CFindPrincipal url]).
Proof.
  unfold findPrincipalByUrl, traced. simpl. rewrite getClient_pair. simpl.
  by rewrite server_settle.
Qed.

(** X1.  After [initializeClientForPublicView], on any session,
    [findPublicCalendarsByTokens] is fulfilled for every list of tokens: it
    asks the public calendar home the initialisation established once per
    token, in the order of the tokens, and returns the lookups that were
    not rejected. *)
Theorem public_view_resolves_tokens (w : World Srv) c tokens :
  session' w = Some c ->
  exists w1 w2,
    initializeClientForPublicView lib generateRemoteUrl w = Some (Fulfilled tt, w1) /\
    byTokens tokens w1
      = Some (Fulfilled (filter (fun calendar => calendar <> JsNull)
                           (map (resolution lib (lib_publicHome lib c) (server w)) tokens)),
              w2) /\
    trace w2 = trace w1 ++ map (CFind (lib_publicHome lib c)) tokens /\
    server w2 = server w.
Proof.
  intros Hs.
  destruct (mutated_settled generateRemoteUrl w c (server (settle' w))
              [CCreatePublicCalendarHome] (createPublicCalendarHome lib c) Hs)
    as (Hset & _ & Hses).
  eexists _, _. split; [exact (initializeClientForPublicView_eq lib generateRemoteUrl w c Hs) |].
  rewrite traced_served.
  rewrite (findPublicCalendarsByTokens_eq lib generateRemoteUrl _ _ (lib_publicHome lib c)
             tokens Hses eq_refl).
  rewrite Hset. simpl. rewrite server_settle. split; [reflexivity |].
  destruct tokens as [|token rest]; simpl; [by rewrite app_nil_r | done].
Qed.

(** X2.  On a session without a public calendar home, as the one of a
    module that has not been initialised, [findPublicCalendarsByTokens] is
    rejected with a TypeError for every non-empty list, before any lookup is
    sent; for the empty list it is fulfilled with the empty list and does not
    even build the client. *)
Theorem tokens_without_public_home (w : World Srv) c :
  session' w = Some c ->
  (client w = None -> publicCalendarHome c = JsNull) /\
  (publicCalendarHome c = JsNull ->
     byTokens [] w = Some (Fulfilled [], w) /\
     forall token rest,
       exists w',
         byTokens (token :: rest) w = Some (Rejected (cannotRead "null" "find"), w') /\
         forall h uri, CFind h uri ∈ trace w' -> CFind h uri ∈ trace w).
Proof.
  intros Hs. split.
  - intros Hnull. rewrite (session_fresh generateRemoteUrl w Hnull) in Hs. by inversion Hs.
  - intros Hp. split; [reflexivity |]. intros token rest. eexists.
    split; [exact (findPublicCalendarsByTokens_no_home lib generateRemoteUrl w c token rest Hs Hp) |].
    intros h uri. rewrite trace_settle, elem_of_app. intros [H | H]; [done |].
    destruct (client w); [by apply elem_of_nil in H |].
    apply list_elem_of_singleton in H. discriminate.
Qed.

(** X3.  [findPrincipalByUrl] needs no initialised session and no calendar
    home: in any world it hands the URL unchanged to the library with one
    call, returns the outcome of that call, a rejection included, and leaves
    the server and the session object as they were. *)
Theorem findPrincipalByUrl_pass_through (w : World Srv) url :
  exists w',
    findPrincipalByUrl lib generateRemoteUrl url w
      = Some (lib_findPrincipal lib url (server w), w') /\
    trace w' = trace w
               ++ match client w with
                  | Some _ => []
                  | None => [CNew (generateRemoteUrl "dav")]
                  end
               ++ [CFindPrincipal url] /\
    server w' = server w /\
    session' w' = session' w.
Proof.
  eexists. split; [apply findPrincipalByUrl_eq |].
  destruct (served_settled generateRemoteUrl w (server (settle' w)) [CFindPrincipal url])
    as (_ & _ & Hses).
  split; [| split].
  - simpl. by rewrite trace_settle, <- app_assoc.
  - apply server_settle.
  - by rewrite traced_served.
Qed.

(** X4.  [initializeClientForUserView] calls [connect] once, with CalDAV
    enabled, and settles as [connect] does, so a failed bootstrap reaches the
    caller.  The session is then the client as [connect] left it: the
    home-scoped operations work on its first calendar home, and throw when it
    has none. *)
Theorem user_view_then_home_operations (w : World Srv) c res c' srv' :
  session' w = Some c ->
  lib_connect lib true c (server w) = (res, c', srv') ->
  exists w1,
    initializeClientForUserView lib generateRemoteUrl w = Some (res, w1) /\
    trace w1 = trace (settle' w) ++ [CConnect true] /\
    server w1 = srv' /\
    session' w1 = Some c' /\
    (forall h, calendarHomes c' !! 0 = Some h -> reaches w1 h) /\
    (calendarHomes c' = [] -> fails w1).
Proof.
  intros Hs Hconnect.
  destruct (mutated_settled generateRemoteUrl w c srv' [CConnect true] c' Hs)
    as (_ & _ & Hses).
  eexists. split.
  { rewrite (initializeClientForUserView_eq lib generateRemoteUrl w c Hs), Hconnect.
    reflexivity. }
  split; [reflexivity |]. split; [reflexivity |]. split; [exact Hses |]. split.
  - intros h Hh. by apply (home_reaches lib generateRemoteUrl _ _ c' h).
  - intros Hh. by apply (home_fails lib generateRemoteUrl _ _ c').
Qed.

(** X5.  The module does not keep the two initialisations apart:
    [initializeClientForPublicView] after [initializeClientForUserView] adds
    the public calendar home to the session [connect] left, which keeps its
    principal and its calendar homes, so that both the home-scoped operations
    and the token lookups work afterwards. *)
Theorem user_view_then_public_view (w : World Srv) c res c' srv' h :
  session' w = Some c ->
  lib_connect lib true c (server w) = (res, c', srv') ->
  calendarHomes c' !! 0 = Some h ->
  exists w1 w2 c2,
    initializeClientForUserView lib generateRemoteUrl w = Some (res, w1) /\
    initializeClientForPublicView lib generateRemoteUrl w1 = Some (Fulfilled tt, w2) /\
    session' w2 = Some c2 /\
    currentUserPrincipal c2 = currentUserPrincipal c' /\
    calendarHomes c2 = calendarHomes c' /\
    publicCalendarHome c2 = JsObj (lib_publicHome lib c') /\
    reaches w2 h /\
    (forall tokens, exists calendars w3, byTokens tokens w2 = Some (Fulfilled calendars, w3)).
Proof.
  intros Hs Hconnect Hh.
  destruct (mutated_settled generateRemoteUrl w c srv' [CConnect true] c' Hs)
    as (_ & _ & Hses1).
  pose (w1 := mutated (served (settle' w) srv' [CConnect true]) (self' w) c').
  destruct (mutated_settled generateRemoteUrl w1 c' (server (settle' w1))
              [CCreatePublicCalendarHome] (createPublicCalendarHome lib c') Hses1)
    as (_ & _ & Hses2).
  exists w1. eexists _, (createPublicCalendarHome lib c'). split.
  { rewrite (initializeClientForUserView_eq lib generateRemoteUrl w c Hs), Hconnect.
    reflexivity. }
  split; [exact (initializeClientForPublicView_eq lib generateRemoteUrl w1 c' Hses1) |].
  rewrite traced_served. split; [exact Hses2 |].
  split; [reflexivity |]. split; [reflexivity |]. split; [reflexivity |]. split.
  - by apply (home_reaches lib generateRemoteUrl CALDAV_BIRTHDAY_CALENDAR _ _ h Hses2 Hh).
  - intros tokens. eexists _, _.
    exact (findPublicCalendarsByTokens_eq lib generateRemoteUrl _ _ _ tokens Hses2 eq_refl).
Qed.

End Compositions.

Section HistoryInvariant.
Context {Srv : Type} (lib : DavLibrary Srv).
Context (generateRemoteUrl : string -> string).
Context (CALDAV_BIRTHDAY_CALENDAR : string).

Local Abbreviation getClient' := (@getClient Srv generateRemoteUrl).
Local Abbreviation exec' := (exec lib generateRemoteUrl CALDAV_BIRTHDAY_CALENDAR).
Local Abbreviation run' := (run lib generateRemoteUrl CALDAV_BIRTHDAY_CALENDAR).
Local Abbreviation appends' := (@appends Srv _).

Lemma news_app tr1 tr2 : news (tr1 ++ tr2) = news tr1 + news tr2.
Proof. induction tr1 as [|d tr1 IH]; simpl; [done | rewrite IH; lia]. Qed.

Lemma appends_silent {A} (m : M A) :
  (forall c (srv : Srv) tr,
     exists a c' srv', m (mkWorld (Some 0) [c] srv tr) = Some (a, mkWorld (Some 0) [c'] srv' tr)) ->
  appends' m.
Proof.
  intros Hm c srv tr. destruct (Hm c srv tr) as (a & c' & srv' & Hrun).
  exists a, c', srv', []. by rewrite app_nil_r.
Qed.

Lemma appends_ret {A} (a : A) : appends' (ret a).
Proof. apply appends_silent. intros c srv tr. by exists a, c, srv. Qed.

Lemma appends_bind {A B} (m : M A) (k : A -> M B) :
  appends' m -> (forall a, appends' (k a)) -> appends' (bind m k).
Proof.
  intros Hm Hk c srv tr.
  destruct (Hm c srv tr) as (a & c1 & srv1 & extra1 & Hrun1 & Hn1).
  destruct (Hk a c1 srv1 (tr ++ extra1)) as (b & c2 & srv2 & extra2 & Hrun2 & Hn2).
  exists b, c2, srv2, (extra1 ++ extra2). simpl. rewrite Hrun1, Hrun2.
  split; [by rewrite app_assoc | rewrite news_app; lia].
Qed.

Lemma appends_getClient {B} (k : Ref -> M B) :
  appends' (k 0) -> appends' (bind (total getClient') k).
Proof. intros Hk c srv tr. simpl. rewrite getClient_eq. simpl. apply Hk. Qed.

Lemma appends_total_getClient : appends' (total getClient').
Proof.
  apply appends_silent. intros c srv tr. simpl. rewrite getClient_eq. simpl. eauto.
Qed.

Lemma appends_deref : appends' (deref 0).
Proof. apply appends_silent. intros c srv tr. by exists c, c, srv. Qed.

Lemma appends_store c' : appends' (store 0 c').
Proof. apply appends_silent. intros c srv tr. by exists tt, c', srv. Qed.

Lemma appends_gets {A} (f : World Srv -> A) : appends' (gets f).
Proof. apply appends_silent. intros c srv tr. simpl. eauto. Qed.

Lemma appends_put_server srv' : appends' (put_server srv').
Proof. apply appends_silent. intros c srv tr. by exists tt, c, srv'. Qed.

Lemma appends_call d : isNew d = false -> appends' (call d).
Proof.
  intros Hd c srv tr. exists tt, c, srv, [d]. split; [done |]. simpl. rewrite Hd. lia.
Qed.

Create HintDb appends.
#[local] Hint Resolve appends_ret appends_deref appends_store appends_gets
  appends_put_server : appends.
#[local] Hint Extern 1 (appends (call _)) => (apply appends_call; reflexivity) : appends.

Ltac appends_step :=
  first
    [ apply appends_getClient
    | apply appends_bind; [| intros ?]
    | progress auto with appends
    | match goal with
      | |- appends (match ?x with _ => _ end) => destruct x
      end ].

Lemma appends_firstCalendarHome : appends' (firstCalendarHome generateRemoteUrl).
Proof. unfold firstCalendarHome. repeat appends_step. Qed.

Lemma appends_findPromisesLoop tokens :
  forall acc, appends' (findPromisesLoop lib generateRemoteUrl tokens acc).
Proof.
  induction tokens as [|token rest IH]; intros acc; simpl.
  - apply appends_ret.
  - repeat appends_step.
Qed.

Lemma appends_getBirthdayCalendar :
  appends' (getBirthdayCalendar lib generateRemoteUrl CALDAV_BIRTHDAY_CALENDAR).
Proof.
  unfold getBirthdayCalendar.
  apply appends_bind; [apply appends_firstCalendarHome | intros v].
  repeat appends_step.
Qed.

#[local] Hint Resolve appends_firstCalendarHome appends_findPromisesLoop
  appends_getBirthdayCalendar : appends.

Lemma after_appends {A} (m : M A) c (srv : Srv) tr :
  appends' m ->
  exists c' srv' extra,
    after m (mkWorld (Some 0) [c] srv tr) = Some (mkWorld (Some 0) [c'] srv' (tr ++ extra))
    /\ news extra = 0.
Proof.
  intros Hm. destruct (Hm c srv tr) as (a & c' & srv' & extra & Hrun & Hn).
  unfold after. rewrite Hrun. eauto.
Qed.

Lemma exec_appends o c (srv : Srv) tr :
  exists c' srv' extra,
    exec' o (mkWorld (Some 0) [c] srv tr) = Some (mkWorld (Some 0) [c'] srv' (tr ++ extra))
    /\ news extra = 0.
Proof.
  destruct o; simpl; apply after_appends.
  all: unfold initializeClientForUserView, initializeClientForPublicView,
         findAllCalendars, findPublicCalendarsByTokens, findSchedulingInbox,
         findSchedulingOutbox, createCalendar, createSubscription,
         enableBirthdayCalendar, getCurrentUserPrincipal,
         findPrincipalsByDisplayName, findPrincipalByUrl.
  all: try apply appends_total_getClient.
  all: repeat appends_step.
Qed.

Lemma run_appends ops :
  forall c (srv : Srv) tr,
    exists c' srv' extra,
      run' ops (mkWorld (Some 0) [c] srv tr) = Some (mkWorld (Some 0) [c'] srv' (tr ++ extra))
      /\ news extra = 0.
Proof.
  induction ops as [|o ops IH]; intros c srv tr; simpl.
  - exists c, srv, []. by rewrite app_nil_r.
  - destruct (exec_appends o c srv tr) as (c1 & srv1 & extra1 & -> & Hn1).
    destruct (IH c1 srv1 (tr ++ extra1)) as (c2 & srv2 & extra2 & -> & Hn2).
    exists c2, srv2, (extra1 ++ extra2).
    split; [by rewrite app_assoc | rewrite news_app; lia].
Qed.

(** X6.  Whatever is called on the freshly loaded module, the history of
    library calls stays empty until the first call that reaches [getClient],
    then starts with the one [new DavClient] for [generateRemoteUrl('dav')],
    and only grows by calls on that client: no library call is made before
    the client exists, none is a second construction, and the heap holds that
    one object. *)
Theorem history_starts_with_construction (srv : Srv) ops :
  exists w,
    run' ops (boot srv) = Some w /\
    (w = boot srv \/
     exists c srv' calls,
       w = mkWorld (Some 0) [c] srv' (CNew (generateRemoteUrl "dav") :: calls) /\
       news calls = 0).
Proof.
  induction ops as [|o ops IH]; simpl.
  - exists (boot srv). auto.
  - destruct (decide (o = OFindPublicCalendarsByTokens [])) as [-> | Hne].
    + exact IH.
    + assert (Hu : unborn (boot srv)) by done.
      rewrite (exec_construct lib generateRemoteUrl CALDAV_BIRTHDAY_CALENDAR o _ Hu Hne).
      change (construct generateRemoteUrl (boot srv))
        with (mkWorld (Some 0) [newDavClient (generateRemoteUrl "dav") xhrProvider] srv
                [CNew (generateRemoteUrl "dav")]).
      destruct (exec_appends o (newDavClient (generateRemoteUrl "dav") xhrProvider) srv
                  [CNew (generateRemoteUrl "dav")]) as (c1 & srv1 & extra1 & -> & Hn1).
      destruct (run_appends ops c1 srv1 ([CNew (generateRemoteUrl "dav")] ++ extra1))
        as (c2 & srv2 & extra2 & -> & Hn2).
      eexists. split; [reflexivity |]. right.
      exists c2, srv2, (extra1 ++ extra2). split; [by rewrite <- app_assoc |].
      rewrite news_app. lia.
Qed.

End HistoryInvariant.

(** * Properties of the settings panel *)

Section SettingsPanel.
Import Settings.
Context {Srv : Type} (lib : DavLibrary Srv).
Context (t : string -> string -> string).
Context (generateRemoteUrl : string -> string).
Context (humanize : string -> Z -> string).
Context (newURL : string -> string -> Completion string).

Local Abbreviation settle' := (@settle Srv generateRemoteUrl).
Local Abbreviation session' := (@session Srv generateRemoteUrl).
Local Abbreviation handler' := (handler t).
Local Abbreviation notSaved := (t "calendar" "New setting was not saved successfully.").

Lemma saving_set_other f g b d : g <> f -> saving g (set_saving f b d) = saving g d.
Proof. intros Hne. destruct f, g; try reflexivity; by destruct Hne. Qed.

Lemma saving_set_same f b d : saving f (set_saving f b d) = b.
Proof. by destruct f. Qed.

Lemma set_saving_commute f g b d :
  f <> g -> set_saving f b (set_saving g b d) = set_saving g b (set_saving f b d).
Proof. intros Hne. destruct f, g; try reflexivity; by destruct Hne. Qed.

Lemma set_saving_twice f b b' d : set_saving f b (set_saving f b' d) = set_saving f b d.
Proof. by destruct f. Qed.

Lemma set_saving_id f d : set_saving f (saving f d) d = d.
Proof. by destruct f, d. Qed.

Lemma handler_eq f picked d :
  handler' f picked d
    = saveSetting t f
        match dispatched f picked with
        | Dispatch action _ => action
        | CopyText text => text
        end
        match dispatched f picked with
        | Dispatch _ payload => payload
        | CopyText _ => None
        end d.
Proof. by destruct f. Qed.

Lemma suspended_handler f picked d : suspended (handler' f picked d) = set_saving f true d.
Proof. by destruct f. Qed.

Lemma resumption_handler f picked d outcome d' :
  (resumption (handler' f picked d) outcome d').1.1 = set_saving f false d'.
Proof. by destruct f, outcome. Qed.

(** X7.  Each of the seven setting handlers dispatches its store action
    with its own [saving...] field set, so that its control is disabled while
    the action is pending, and touches no other field.  However the action
    settles, and whatever happened to the component meanwhile, the handler
    resets that one field, leaves the others alone and never rejects, so the
    control is enabled again (the birthday checkbox unless the calendars are
    still loading); it logs the error and shows the error message exactly
    when the action was rejected. *)
Theorem setting_handler_lifecycle f picked d outcome d' :
  awaited (handler' f picked d) = Some (dispatched f picked) /\
  saving f (suspended (handler' f picked d)) = true /\
  controlDisabled f (suspended (handler' f picked d)) = true /\
  (forall g, g <> f -> saving g (suspended (handler' f picked d)) = saving g d) /\
  loadingCalendars (suspended (handler' f picked d)) = loadingCalendars d /\
  displayKeyboardShortcuts (suspended (handler' f picked d)) = displayKeyboardShortcuts d /\
  exists d2 events,
    resumption (handler' f picked d) outcome d' = (d2, events, Fulfilled tt) /\
    saving f d2 = false /\
    (forall g, g <> f -> saving g d2 = saving g d') /\
    loadingCalendars d2 = loadingCalendars d' /\
    displayKeyboardShortcuts d2 = displayKeyboardShortcuts d' /\
    controlDisabled f d2 = match f with
                           | SavingBirthdayCalendar => loadingCalendars d'
                           | _ => false
                           end /\
    events = match outcome with
             | Fulfilled _ => []
             | Rejected error => [ConsoleError error; ShowError notSaved]
             end.
Proof.
  rewrite handler_eq. unfold saveSetting. simpl.
  split; [by destruct f |]. split; [apply saving_set_same |].
  split; [by destruct f |]. split; [intros g Hg; by apply saving_set_other |].
  split; [by destruct f |]. split; [by destruct f |].
  exists (set_saving f false d'). destruct outcome as [[] | error]; eexists.
  all: split; [reflexivity |]; split; [apply saving_set_same |].
  all: split; [intros g Hg; by apply saving_set_other |].
  all: split; [by destruct f |]; split; [by destruct f |].
  all: split; [by destruct f | reflexivity].
Qed.

(** X8.  Two different setting handlers started one after the other do not
    disturb each other: while both actions are pending both fields are set,
    and in whichever order the two actions settle, and however, the
    component ends up the same, with both fields reset; a panel that was not
    saving either setting is back where it started. *)
Theorem setting_handlers_do_not_interfere f g picked d outcome_f outcome_g :
  f <> g ->
  let first := handler' f picked d in
  let second := handler' g picked (suspended first) in
  let pending := suspended second in
  let f_then_g := (resumption second outcome_g (resumption first outcome_f pending).1.1).1.1 in
  let g_then_f := (resumption first outcome_f (resumption second outcome_g pending).1.1).1.1 in
  saving f pending = true /\ saving g pending = true /\
  f_then_g = g_then_f /\
  saving f f_then_g = false /\ saving g f_then_g = false /\
  (saving f d = false -> saving g d = false -> f_then_g = d).
Proof.
  intros Hne. simpl. rewrite !resumption_handler, !suspended_handler.
  split; [by rewrite saving_set_other, saving_set_same |].
  split; [apply saving_set_same |].
  split; [by apply set_saving_commute |].
  split; [by rewrite saving_set_other, saving_set_same |].
  split; [apply saving_set_same |].
  intros Hf Hg. destruct d. destruct f, g; simpl in *; subst; try reflexivity; by destruct Hne.
Qed.

Lemma js_find_value (options : list DurationOption) s :
  (s ∈ map value options ->
     exists o, js_find (fun o => bool_decide (value o = s)) options = JsObj o /\
               value o = s /\ o ∈ options) /\
  (s ∉ map value options ->
     js_find (fun o => bool_decide (value o = s)) options = JsUndefined).
Proof.
  induction options as [|o options [IHin IHout]]; simpl.
  - split; [intros H; by apply elem_of_nil in H | done].
  - destruct (decide (value o = s)) as [Heq | Hne].
    + rewrite bool_decide_eq_true_2 by done. split.
      * intros _. exists o. split; [done |]. split; [done | by left].
      * intros Hout. destruct Hout. rewrite Heq. by left.
    + rewrite bool_decide_eq_false_2 by done. split.
      * intros Hin. apply elem_of_cons in Hin as [Hin | Hin]; [by destruct Hne |].
        destruct (IHin Hin) as (o' & Hfind & Hval & Hmem).
        exists o'. split; [done |]. split; [done | by right].
      * intros Hout. apply IHout. intros Hin. apply Hout. by right.
Qed.

(** X9.  [selectedDurationOption] is the entry of [slotDurationOptions]
    whose value is the stored slot duration, labelled for the current
    locale, when the stored value is one of the six durations on offer, which
    are all different; for any other stored value it is [undefined]. *)
Theorem selectedDurationOption_by_value locale slotDuration :
  map value (slotDurationOptions humanize locale)
    = ["00:05:00"; "00:10:00"; "00:15:00"; "00:20:00"; "00:30:00"; "01:00:00"] /\
  NoDup (map value (slotDurationOptions humanize locale)) /\
  (slotDuration ∈ map value (slotDurationOptions humanize locale) ->
     exists o,
       selectedDurationOption humanize locale slotDuration = JsObj o /\
       value o = slotDuration /\
       o ∈ slotDurationOptions humanize locale) /\
  (slotDuration ∉ map value (slotDurationOptions humanize locale) ->
     selectedDurationOption humanize locale slotDuration = JsUndefined).
Proof.
  split; [reflexivity |]. split.
  - simpl. apply (bool_decide_unpack _). vm_compute. exact I.
  - apply js_find_value.
Qed.

(** X10.  [changeSlotDuration] called with the option selected for a stored
    slot duration dispatches [setSlotDuration] with that same duration when
    it is one of those on offer; when it is not, the selected option is
    [undefined] and, as for [null], the method returns at once: nothing is
    dispatched and the component is left as it is. *)
Theorem changeSlotDuration_of_selected locale slotDuration d :
  (slotDuration ∈ map value (slotDurationOptions humanize locale) ->
     awaited (changeSlotDuration t (selectedDurationOption humanize locale slotDuration) d)
       = Some (Dispatch "setSlotDuration" (Some slotDuration)) /\
     savingSlotDuration
       (suspended (changeSlotDuration t (selectedDurationOption humanize locale slotDuration) d))
       = true) /\
  (slotDuration ∉ map value (slotDurationOptions humanize locale) ->
     changeSlotDuration t (selectedDurationOption humanize locale slotDuration) d
       = Done d (Fulfilled tt)) /\
  changeSlotDuration t JsNull d = Done d (Fulfilled tt).
Proof.
  destruct (js_find_value (slotDurationOptions humanize locale) slotDuration) as [Hin Hout].
  split; [| split; [| reflexivity]].
  - intros H. destruct (Hin H) as (o & Hsel & Hval & _).
    unfold selectedDurationOption. rewrite Hsel. simpl. by rewrite Hval.
  - intros H. unfold selectedDurationOption. by rewrite (Hout H).
Qed.

(** X11.  [copyAppleCalDAV] reads the principal before its [try]: on a
    session without a principal, as on a module that was never initialised
    or only for the public view, it is rejected with a TypeError, copies
    nothing and shows nothing.  With a principal it copies the address
    [new URL] makes of the principal URL and the DAV root, unless [new URL]
    throws; once the copy is under way it never rejects and shows one
    message, the success message exactly when the copy succeeded, as
    [copyPrimaryCalDAV] does for the DAV root. *)
Theorem copyAppleCalDAV_needs_principal (w : World Srv) c d :
  session' w = Some c ->
  (client w = None -> currentUserPrincipal c = JsNull) /\
  (currentUserPrincipal c = JsNull ->
     copyAppleCalDAV t generateRemoteUrl newURL d w
       = Some (Done d (Rejected (cannotRead "null" "principalUrl")), settle' w) /\
     exists w1,
       initializeClientForPublicView lib generateRemoteUrl w = Some (Fulfilled tt, w1) /\
       copyAppleCalDAV t generateRemoteUrl newURL d w1
         = Some (Done d (Rejected (cannotRead "null" "principalUrl")), w1)) /\
  (forall p, currentUserPrincipal c = JsObj p ->
     copyAppleCalDAV t generateRemoteUrl newURL d w
       = Some (match newURL (principalUrl p) (generateRemoteUrl "dav") with
               | Return url => copyLink t url d
               | Throw e => Done d (Rejected e)
               end, settle' w)) /\
  copyPrimaryCalDAV t generateRemoteUrl d = copyLink t (generateRemoteUrl "dav") d /\
  (forall url outcome d',
     awaited (copyLink t url d) = Some (CopyText url) /\
     suspended (copyLink t url d) = d /\
     resumption (copyLink t url d) outcome d'
       = (d',
          match outcome with
          | Fulfilled _ => [ShowSuccess (t "calendar" "CalDAV link copied to clipboard.")]
          | Rejected error =>
              [ConsoleDebug error;
               ShowError (t "calendar" "CalDAV link could not be copied to clipboard.")]
          end,
          Fulfilled tt)).
Proof.
  intros Hs.
  assert (Hnull : forall (w0 : World Srv) c0,
            session' w0 = Some c0 -> currentUserPrincipal c0 = JsNull ->
            copyAppleCalDAV t generateRemoteUrl newURL d w0
              = Some (Done d (Rejected (cannotRead "null" "principalUrl")), settle' w0)).
  { intros w0 c0 Hs0 Hp0. unfold copyAppleCalDAV, bind.
    rewrite (getCurrentUserPrincipal_eq generateRemoteUrl w0 c0 Hs0), Hp0. reflexivity. }
  split; [| split; [| split; [| split]]].
  - intros Hc. rewrite (session_fresh generateRemoteUrl w Hc) in Hs. by inversion Hs.
  - intros Hp. split; [by apply (Hnull w c) |].
    destruct (mutated_settled generateRemoteUrl w c (server (settle' w))
                [CCreatePublicCalendarHome] (createPublicCalendarHome lib c) Hs)
      as (Hset & _ & Hses).
    eexists. split; [exact (initializeClientForPublicView_eq lib generateRemoteUrl w c Hs) |].
    rewrite traced_served, (Hnull _ _ Hses Hp). by rewrite Hset.
  - intros p Hp. unfold copyAppleCalDAV, bind.
    rewrite (getCurrentUserPrincipal_eq generateRemoteUrl w c Hs), Hp. simpl.
    by destruct (newURL (principalUrl p) (generateRemoteUrl "dav")).
  - reflexivity.
  - intros url outcome d'. split; [reflexivity |]. split; [reflexivity |].
    by destruct outcome.
Qed.

End SettingsPanel.

(** * Runs on the sample server *)

Module SampleRuns.
Import Sample.

Local Abbreviation gru := generateRemoteUrl.
Local Abbreviation birthdays := CALDAV_BIRTHDAY_CALENDAR.

(** C3, the claim as stated fails: on the page that ran
    [initializeClientForPublicView], [getCurrentUserPrincipal] returns [null];
    it does not throw, so no NotAuthenticatedError is raised. *)
Lemma getCurrentUserPrincipal_public_returns_null :
  initializeClientForPublicView (library false) gru (boot server0)
    = Some (Fulfilled tt, publicWorld) /\
  getCurrentUserPrincipal gru publicWorld = Some (Return JsNull, publicWorld) /\
  ~ (exists e w', getCurrentUserPrincipal gru publicWorld = Some (Throw e, w')).
Proof.
  assert (Hget : getCurrentUserPrincipal gru publicWorld = Some (Return JsNull, publicWorld))
    by (vm_compute; reflexivity).
  split; [vm_compute; reflexivity |]. split; [exact Hget |].
  intros (e & w' & Hthrow). rewrite Hget in Hthrow. discriminate.
Qed.

(** C4, the claim as stated fails: against a server that refuses to enable
    what is enabled already, the first [enableBirthdayCalendar] returns the
    birthday calendar and the second one is rejected with the server's
    error. *)
Lemma enableBirthdayCalendar_twice_on_strict_server :
  exists calendar w1 w2,
    enableBirthdayCalendar (library true) gru birthdays (userWorld true)
      = Some (Fulfilled (JsObj calendar), w1) /\
    enableBirthdayCalendar (library true) gru birthdays w1
      = Some (Rejected alreadyExists, w2).
Proof.
  eexists _, _, _. split; vm_compute; reflexivity.
Qed.

(** C6, the claim as stated fails: the empty query is sent to the server
    like any other, and here the search answers with a principal. *)
Lemma findPrincipalsByDisplayName_empty_query_searches :
  exists w',
    findPrincipalsByDisplayName (library false) gru "" (boot server0)
      = Some (Fulfilled [admin], w') /\
    trace w' = [CNew "/remote.php/dav"; CPrincipalPropertySearchByDisplayname ""].
Proof.
  eexists. split; vm_compute; reflexivity.
Qed.

(** C2 on the public page: two shared tokens around an expired one give two
    calendars. *)
Lemma findPublicCalendarsByTokens_partial_failure_witness :
  session gru publicWorld = Some publicClient /\
  publicCalendarHome publicClient = JsObj publicHome /\
  exists calendars w',
    findPublicCalendarsByTokens (library false) gru ["tokenA"; "expired"; "tokenB"] publicWorld
      = Some (Fulfilled calendars, w') /\
    length calendars = 2.
Proof.
  assert (Hs : session gru publicWorld = Some publicClient) by (vm_compute; reflexivity).
  assert (Hp : publicCalendarHome publicClient = JsObj publicHome) by reflexivity.
  split; [exact Hs |]. split; [exact Hp |].
  destruct (findPublicCalendarsByTokens_partial_failure (library false) gru publicWorld
              publicClient publicHome ["tokenA"; "expired"; "tokenB"] Hs Hp)
    as (calendars & w' & Hrun & _ & Hlen & _).
  exists calendars, w'. split; [exact Hrun |]. rewrite Hlen. vm_compute. reflexivity.
Defined.

(** C9 on the public page: the calendars come in the order of their tokens. *)
Lemma findPublicCalendarsByTokens_order_witness :
  session gru publicWorld = Some publicClient /\
  publicCalendarHome publicClient = JsObj publicHome /\
  exists calendars w',
    findPublicCalendarsByTokens (library false) gru ["tokenB"; "expired"; "tokenA"] publicWorld
      = Some (Fulfilled calendars, w') /\
    calendars = [JsObj (mkCalendar "/remote.php/dav/public-calendars/tokenB" "tokenB");
                 JsObj (mkCalendar "/remote.php/dav/public-calendars/tokenA" "tokenA")].
Proof.
  assert (Hs : session gru publicWorld = Some publicClient) by (vm_compute; reflexivity).
  assert (Hp : publicCalendarHome publicClient = JsObj publicHome) by reflexivity.
  split; [exact Hs |]. split; [exact Hp |].
  destruct (findPublicCalendarsByTokens_order (library false) gru publicWorld
              publicClient publicHome ["tokenB"; "expired"; "tokenA"] Hs Hp)
    as (calendars & w' & Hrun & Hcal & _).
  exists calendars, w'. split; [exact Hrun |]. rewrite Hcal. vm_compute. reflexivity.
Defined.

(** C3 (as amended) on a fresh page. *)
Lemma getCurrentUserPrincipal_public_mode_witness :
  session gru (boot server0) = Some freshClient /\
  exists w1,
    initializeClientForPublicView (library false) gru (boot server0) = Some (Fulfilled tt, w1) /\
    getCurrentUserPrincipal gru w1 = Some (Return JsNull, w1).
Proof.
  assert (Hs : session gru (boot server0) = Some freshClient) by (vm_compute; reflexivity).
  split; [exact Hs |].
  destruct (getCurrentUserPrincipal_public_mode (library false) gru (boot server0)
              freshClient Hs) as (w1 & Hinit & Hget & _).
  exists w1. split; [exact Hinit | exact Hget].
Defined.

(** C4 (as amended) on a server whose enable request can be repeated. *)
Lemma enableBirthdayCalendar_enable_then_fetch_witness :
  session gru (userWorld false) = Some userClient /\
  calendarHomes userClient !! 0 = Some userHome /\
  exists srv1,
    lib_enableBirthdayCalendar (library false) userHome (server (userWorld false))
      = (Fulfilled tt, srv1) /\
    lib_enableBirthdayCalendar (library false) userHome srv1 = (Fulfilled tt, srv1) /\
    exists w1 w2 calendar,
      enableBirthdayCalendar (library false) gru birthdays (userWorld false)
        = Some (Fulfilled (JsObj calendar), w1) /\
      enableBirthdayCalendar (library false) gru birthdays w1
        = Some (Fulfilled (JsObj calendar), w2).
Proof.
  assert (Hs : session gru (userWorld false) = Some userClient) by (vm_compute; reflexivity).
  assert (Hh : calendarHomes userClient !! 0 = Some userHome) by reflexivity.
  split; [exact Hs |]. split; [exact Hh |].
  exists (mkServer [birthdays; "tokenA"; "tokenB"] [admin]).
  assert (H1 : lib_enableBirthdayCalendar (library false) userHome (server (userWorld false))
               = (Fulfilled tt, mkServer [birthdays; "tokenA"; "tokenB"] [admin]))
    by (vm_compute; reflexivity).
  assert (H2 : lib_enableBirthdayCalendar (library false) userHome
                 (mkServer [birthdays; "tokenA"; "tokenB"] [admin])
               = (Fulfilled tt, mkServer [birthdays; "tokenA"; "tokenB"] [admin]))
    by (vm_compute; reflexivity).
  split; [exact H1 |]. split; [exact H2 |].
  destruct (enableBirthdayCalendar_enable_then_fetch (library false) gru birthdays
              (userWorld false) userClient userHome _ _ _ _ Hs Hh H1 H2)
    as (w1 & w2 & Hfirst & _ & _ & Hsecond & _).
  exists w1, w2, (mkCalendar "/remote.php/dav/calendars/admin/contact_birthdays" birthdays).
  split; [exact Hfirst | exact Hsecond].
Defined.

(** C5 on the user page. *)
Lemma findSchedulingInbox_first_witness :
  session gru (userWorld false) = Some userClient /\
  calendarHomes userClient !! 0 = Some userHome /\
  lib_findAllScheduleInboxes (library false) userHome (server (userWorld false))
    = Fulfilled [inbox] /\
  lib_findAllScheduleOutboxes (library false) userHome (server (userWorld false))
    = Fulfilled [outbox] /\
  exists w1 w2,
    findSchedulingInbox (library false) gru (userWorld false) = Some (Fulfilled (JsObj inbox), w1) /\
    findSchedulingOutbox (library false) gru (userWorld false) = Some (Fulfilled (JsObj outbox), w2).
Proof.
  assert (Hs : session gru (userWorld false) = Some userClient) by (vm_compute; reflexivity).
  assert (Hh : calendarHomes userClient !! 0 = Some userHome) by reflexivity.
  assert (Hin : lib_findAllScheduleInboxes (library false) userHome (server (userWorld false))
                = Fulfilled [inbox]) by reflexivity.
  assert (Hout : lib_findAllScheduleOutboxes (library false) userHome (server (userWorld false))
                 = Fulfilled [outbox]) by reflexivity.
  split; [exact Hs |]. split; [exact Hh |]. split; [exact Hin |]. split; [exact Hout |].
  destruct (findSchedulingInbox_first (library false) gru (userWorld false) userClient
              userHome [inbox] [outbox] Hs Hh Hin Hout) as (Hinbox & Houtbox & _).
  eexists _, _. split; [exact Hinbox | exact Houtbox].
Defined.

(** C8 on a fresh page. *)
Lemma initializeClientForPublicView_frame_witness :
  session gru (boot server0) = Some freshClient /\
  exists w',
    initializeClientForPublicView (library false) gru (boot server0) = Some (Fulfilled tt, w') /\
    trace w' = [CNew "/remote.php/dav"; CCreatePublicCalendarHome] /\
    server w' = server0 /\
    session gru w' = Some publicClient.
Proof.
  assert (Hs : session gru (boot server0) = Some freshClient) by (vm_compute; reflexivity).
  split; [exact Hs |].
  destruct (initializeClientForPublicView_frame (library false) gru (boot server0)
              freshClient Hs)
    as (w' & c' & Hinit & Htrace & _ & Hserver & _ & Hses & Hpub & Hprin & Hhomes & Hroot & Hfac & _).
  exists w'. split; [exact Hinit |]. split; [exact Htrace |]. split; [exact Hserver |].
  rewrite Hses. f_equal. destruct c'. simpl in *. by subst.
Defined.

(** C10 on the user page, whose client has one calendar home. *)
Lemma home_scoped_operations_first_home_witness :
  session gru (userWorld false) = Some userClient /\
  home_access_reaches (library false) gru birthdays (userWorld false) userHome.
Proof.
  assert (Hs : session gru (userWorld false) = Some userClient) by (vm_compute; reflexivity).
  split; [exact Hs |].
  destruct (home_scoped_operations_first_home (library false) gru birthdays
              (userWorld false) userClient Hs) as (Hreach & _).
  apply Hreach. reflexivity.
Defined.

End SampleRuns.

(** * Further runs on the sample server *)

Module ExtraRuns.
Import Sample SamplePage.

Local Abbreviation gru := generateRemoteUrl.
Local Abbreviation birthdays := CALDAV_BIRTHDAY_CALENDAR.

(** X1 on a fresh page: public initialisation, then three tokens of which
    the middle one has expired. *)
Lemma public_view_resolves_tokens_witness :
  session gru (boot server0) = Some freshClient /\
  exists w1 w2,
    initializeClientForPublicView (library false) gru (boot server0) = Some (Fulfilled tt, w1) /\
    findPublicCalendarsByTokens (library false) gru ["tokenA"; "expired"; "tokenB"] w1
      = Some (Fulfilled
                [JsObj (mkCalendar "/remote.php/dav/public-calendars/tokenA" "tokenA");
                 JsObj (mkCalendar "/remote.php/dav/public-calendars/tokenB" "tokenB")], w2) /\
    trace w2 = trace w1 ++ [CFind publicHome "tokenA"; CFind publicHome "expired";
                            CFind publicHome "tokenB"].
Proof.
  assert (Hs : session gru (boot server0) = Some freshClient) by (vm_compute; reflexivity).
  split; [exact Hs |].
  destruct (public_view_resolves_tokens (library false) gru (boot server0) freshClient
              ["tokenA"; "expired"; "tokenB"] Hs) as (w1 & w2 & Hinit & Hfind & Htrace & _).
  exists w1, w2. split; [exact Hinit |]. split; [exact Hfind |].
  rewrite Htrace. reflexivity.
Defined.

(** X2 on a fresh page, whose client has no public calendar home. *)
Lemma tokens_without_public_home_witness :
  session gru (boot server0) = Some freshClient /\
  findPublicCalendarsByTokens (library false) gru [] (boot server0)
    = Some (Fulfilled [], boot server0) /\
  exists w',
    findPublicCalendarsByTokens (library false) gru ["tokenA"] (boot server0)
      = Some (Rejected (cannotRead "null" "find"), w').
Proof.
  assert (Hs : session gru (boot server0) = Some freshClient) by (vm_compute; reflexivity).
  split; [exact Hs |].
  destruct (tokens_without_public_home (library false) gru (boot server0) freshClient Hs)
    as (Hfresh & Hrest).
  destruct (Hrest (Hfresh eq_refl)) as (Hempty & Hnonempty).
  split; [exact Hempty |].
  destruct (Hnonempty "tokenA" []) as (w' & Hrun & _).
  exists w'. exact Hrun.
Defined.

(** X4 on a fresh page: the bootstrap finds the home of the one user. *)
Lemma user_view_then_home_operations_witness :
  session gru (boot server0) = Some freshClient /\
  lib_connect (library false) true freshClient (server (boot server0))
    = (Fulfilled tt, userClient, server0) /\
  exists w1,
    initializeClientForUserView (library false) gru (boot server0) = Some (Fulfilled tt, w1) /\
    home_access_reaches (library false) gru birthdays w1 userHome.
Proof.
  assert (Hs : session gru (boot server0) = Some freshClient) by (vm_compute; reflexivity).
  assert (Hc : lib_connect (library false) true freshClient (server (boot server0))
               = (Fulfilled tt, userClient, server0)) by reflexivity.
  split; [exact Hs |]. split; [exact Hc |].
  destruct (user_view_then_home_operations (library false) gru birthdays (boot server0)
              freshClient _ _ _ Hs Hc) as (w1 & Hinit & _ & _ & _ & Hreach & _).
  exists w1. split; [exact Hinit | apply Hreach; reflexivity].
Defined.

(** X5 on a fresh page: the user view first, the public view after it. *)
Lemma user_view_then_public_view_witness :
  session gru (boot server0) = Some freshClient /\
  lib_connect (library false) true freshClient (server (boot server0))
    = (Fulfilled tt, userClient, server0) /\
  calendarHomes userClient !! 0 = Some userHome /\
  exists w1 w2 c2,
    initializeClientForUserView (library false) gru (boot server0) = Some (Fulfilled tt, w1) /\
    initializeClientForPublicView (library false) gru w1 = Some (Fulfilled tt, w2) /\
    session gru w2 = Some c2 /\
    currentUserPrincipal c2 = JsObj admin /\
    calendarHomes c2 = [userHome] /\
    publicCalendarHome c2 = JsObj publicHome.
Proof.
  assert (Hs : session gru (boot server0) = Some freshClient) by (vm_compute; reflexivity).
  assert (Hc : lib_connect (library false) true freshClient (server (boot server0))
               = (Fulfilled tt, userClient, server0)) by reflexivity.
  assert (Hh : calendarHomes userClient !! 0 = Some userHome) by reflexivity.
  split; [exact Hs |]. split; [exact Hc |]. split; [exact Hh |].
  destruct (user_view_then_public_view (library false) gru birthdays (boot server0)
              freshClient _ _ _ userHome Hs Hc Hh)
    as (w1 & w2 & c2 & Huser & Hpublic & Hses & Hprin & Hhomes & Hpub & _).
  exists w1, w2, c2. repeat split; try done.
Defined.

(** X8 on an idle panel: the tasks and the weekends setting, the first
    saved, the second refused. *)
Lemma setting_handlers_do_not_interfere_witness :
  Settings.SavingTasks <> Settings.SavingWeekend /\
  (Settings.resumption (Settings.toggleWeekendsEnabled t
                          (Settings.suspended (Settings.toggleTasksEnabled t (Settings.data false))))
     (Rejected Sample.notFound)
     (Settings.resumption (Settings.toggleTasksEnabled t (Settings.data false))
        (Fulfilled tt)
        (Settings.suspended
           (Settings.toggleWeekendsEnabled t
              (Settings.suspended (Settings.toggleTasksEnabled t (Settings.data false)))))).1.1).1.1
  = Settings.data false.
Proof.
  assert (Hne : Settings.SavingTasks <> Settings.SavingWeekend) by discriminate.
  split; [exact Hne |].
  destruct (setting_handlers_do_not_interfere t Settings.SavingTasks Settings.SavingWeekend
              (Settings.mkDurationOption "" "") (Settings.data false)
              (Fulfilled tt) (Rejected Sample.notFound) Hne)
    as (_ & _ & _ & _ & _ & Hback).
  apply Hback; reflexivity.
Defined.

(** X11 on a fresh page, where there is no principal to read. *)
Lemma copyAppleCalDAV_needs_principal_witness :
  session gru (boot server0) = Some freshClient /\
  exists w',
    Settings.copyAppleCalDAV t gru newURL loadingPanel (boot server0)
      = Some (Settings.Done loadingPanel (Rejected (cannotRead "null" "principalUrl")), w').
Proof.
  assert (Hs : session gru (boot server0) = Some freshClient) by (vm_compute; reflexivity).
  split; [exact Hs |].
  destruct (copyAppleCalDAV_needs_principal (library false) t gru newURL (boot server0)
              freshClient loadingPanel Hs) as (Hfresh & Hnull & _).
  destruct (Hnull (Hfresh eq_refl)) as (Hrun & _).
  eexists. exact Hrun.
Defined.

End ExtraRuns.
